(** * Ad analysis script: a shallow embedding of [streamlit_app.py]

    The script uploads a search-results document, probes the provider's
    account-status endpoint, sends each record through five chat-completion
    prompts and offers the accumulated analysis for download.

    Python values are modelled by inductive types, the effects of the script
    (HTTP calls, sleeps, messages shown to the user, the session's cached
    results) by a state-and-exception monad over a [World]. *)

From Stdlib Require Import List String Ascii ZArith Lia Bool Arith.
From Stdlib Require Import DecimalString Decimal.
Import ListNotations.
Open Scope string_scope.

Set Implicit Arguments.
Set Warnings "-register-all".


(* ------------------------------------------------------------------ *)
(** ** Text *)

(** The newline character of Python's ["\n"]. *)
Definition nl : string := String "010"%char EmptyString.

(** ["\n\n"], the separator appended after every response text. *)
Definition blank_line : string := nl ++ nl.

(** Decimal rendering of a count, as an f-string renders an [int]. *)
Definition str_of_nat (n : nat) : string := NilEmpty.string_of_uint (Nat.to_uint n).

(* ------------------------------------------------------------------ *)
(** ** JSON values, as [json.load] and [response.json()] produce them *)

Inductive json : Type :=
| JNull                                    (* None *)
| JBool (b : bool)
| JInt (n : Z)
| JFloat (literal : string)                (* never computed with: kept as written *)
| JStr (s : string)
| JArr (items : list json)
| JObj (fields : list (string * json)).    (* a dict: distinct keys, in insertion order *)

(** Lookup of a key in a dict's fields. *)
Fixpoint dict_lookup (k : string) (fields : list (string * json)) : option json :=
  match fields with
  | [] => None
  | (k', v) :: rest => if String.eqb k k' then Some v else dict_lookup k rest
  end.

(* ------------------------------------------------------------------ *)
(** ** Exceptions *)

Inductive Exn : Type :=
| ConnectionError (msg : string)           (* requests.exceptions.ConnectionError *)
| Timeout (msg : string)                   (* requests.exceptions.Timeout *)
| HTTPError (status : Z)                   (* raised by raise_for_status *)
| JSONDecodeError                          (* response.json() / json.load on a non-JSON text *)
| KeyError (k : string)
| IndexError
| TypeError (msg : string)
| AttributeError (msg : string)
| NotImplementedError
| RetryError (last : Exn).                 (* tenacity, when the attempts are used up *)

(** [isinstance(e, requests.exceptions.RequestException)]: the transport
    failures, and also [HTTPError] and the JSON error of [response.json()],
    which subclass it. *)
Definition is_RequestException (e : Exn) : bool :=
  match e with
  | ConnectionError _ | Timeout _ | HTTPError _ | JSONDecodeError => true
  | _ => false
  end.

(** [str(e)], as interpolated into the messages shown to the user (the
    libraries' wording is abridged). *)
Fixpoint exn_str (e : Exn) : string :=
  match e with
  | ConnectionError msg => msg
  | Timeout msg => msg
  | HTTPError status => "HTTP error " ++ str_of_nat (Z.to_nat status)
  | JSONDecodeError => "Expecting value: line 1 column 1 (char 0)"
  | KeyError k => "'" ++ k ++ "'"
  | IndexError => "list index out of range"
  | TypeError msg => msg
  | AttributeError msg => msg
  | NotImplementedError => EmptyString
  | RetryError last => "RetryError[" ++ exn_str last ++ "]"
  end.

(* ------------------------------------------------------------------ *)
(** ** HTTP *)

Record Request : Type := {
  req_url : string;
  req_headers : list (string * string);
  req_model : string;
  req_messages : list (string * string)    (* role, content *)
}.

(** A response: its status code and its body as [response.json()] reads it
    ([None] when the body is not JSON). *)
Record Response : Type := {
  status_code : Z;
  body : option json
}.

(** What a call of [requests.get] / [requests.post] does: raise, or answer. *)
Inductive HttpOutcome : Type :=
| Fails (e : Exn)
| Answers (r : Response).

(* ------------------------------------------------------------------ *)
(** ** Tables *)

(** A cell of a DataFrame, as pandas holds it: a text, the missing value of
    a record that lacks the field of the column, [None] (a JSON null), or
    any other value (a number, a boolean, a list), known by the text that
    [str()] gives for it. *)
Inductive Cell : Type :=
| Text (s : string)
| NaN
| NoneCell
| Other (shown : string).

(** A cell inside an f-string. *)
Definition format_cell (c : Cell) : string :=
  match c with
  | Text s => s
  | NaN => "nan"
  | NoneCell => "None"
  | Other shown => shown
  end.

(** A row of a DataFrame: column label and cell. *)
Definition Row : Type := list (string * Cell).
Definition DataFrame : Type := list Row.

Fixpoint row_lookup (k : string) (row : Row) : option Cell :=
  match row with
  | [] => None
  | (k', v) :: rest => if String.eqb k k' then Some v else row_lookup k rest
  end.

(* ------------------------------------------------------------------ *)
(** ** The world of one script run *)

Inductive Event : Type :=
| Post (req : Request)                     (* requests.post *)
| Get (url : string) (headers : list (string * string))   (* requests.get *)
| Sleep (seconds : Z)                      (* time.sleep *)
| StError (msg : string)                   (* st.error *)
| StSuccess (msg : string)                 (* st.success *)
| StWrite (text : string)                  (* st.write / st.subheader of a text *)
| StWriteFrame (df : DataFrame)            (* st.write(df) *)
| StExpander (label : string) (content : Cell)   (* one expander with its analysis *)
| StDownload (csv : string).               (* st.download_button *)

Record World : Type := {
  posts : nat;                             (* chat-completion calls issued so far *)
  gets : nat;                              (* account-status calls issued so far *)
  trace : list Event;                      (* what happened, oldest first *)
  session_results : option DataFrame       (* st.session_state.results *)
}.

Definition initial_world : World :=
  {| posts := 0; gets := 0; trace := []; session_results := None |}.

(** What the script gets from outside its own text: the secret, the two
    remote endpoints (the answer to the n-th call of the run, which may depend
    on the request), and pandas' [json_normalize]. *)
Record Env : Type := {
  openrouter_api_key : string;
  post_server : nat -> Request -> HttpOutcome;
  get_server : nat -> HttpOutcome;
  json_normalize : json -> Exn + DataFrame
}.

(* ------------------------------------------------------------------ *)
(** ** The monad: state over [World], with exceptions *)

Inductive Outcome (A : Type) : Type :=
| Ok (a : A)
| Raise (e : Exn).
Arguments Ok {A} a.
Arguments Raise {A} e.

Definition M (A : Type) : Type := World -> Outcome A * World.

Definition ret {A} (a : A) : M A := fun w => (Ok a, w).

Definition bind {A B} (m : M A) (k : A -> M B) : M B :=
  fun w => match m w with
           | (Ok a, w') => k a w'
           | (Raise e, w') => (Raise e, w')
           end.

Definition raise {A} (e : Exn) : M A := fun w => (Raise e, w).

(** [try: body except Exception as e: handler e]. *)
Definition try_except {A} (body : M A) (handler : Exn -> M A) : M A :=
  fun w => match body w with
           | (Ok a, w') => (Ok a, w')
           | (Raise e, w') => handler e w'
           end.

Declare Scope monad_scope.
Delimit Scope monad_scope with monad.
Notation "x <- m ;; k" := (bind m (fun x => k))
  (at level 61, m at next level, right associativity) : monad_scope.
Notation "m ;; k" := (bind m (fun _ => k))
  (at level 61, right associativity) : monad_scope.
Open Scope monad_scope.

(** The world after one more event. *)
Definition log (ev : Event) (w : World) : World :=
  {| posts := posts w; gets := gets w;
     trace := trace w ++ [ev];
     session_results := session_results w |}.

(** The world after one more chat-completion call, resp. account-status call. *)
Definition posted (req : Request) (w : World) : World :=
  {| posts := S (posts w); gets := gets w;
     trace := trace w ++ [Post req];
     session_results := session_results w |}.

Definition got (url : string) (headers : list (string * string)) (w : World) : World :=
  {| posts := posts w; gets := S (gets w);
     trace := trace w ++ [Get url headers];
     session_results := session_results w |}.

Definition emit (ev : Event) : M unit := fun w => (Ok tt, log ev w).

Definition st_error (msg : string) : M unit := emit (StError msg).
Definition st_success (msg : string) : M unit := emit (StSuccess msg).
Definition time_sleep (seconds : Z) : M unit := emit (Sleep seconds).

Definition set_session_results (r : option DataFrame) : M unit :=
  fun w => (Ok tt, {| posts := posts w; gets := gets w; trace := trace w;
                      session_results := r |}).

Definition get_session_results : M (option DataFrame) :=
  fun w => (Ok (session_results w), w).

(* ------------------------------------------------------------------ *)
(** ** Python operations on JSON values *)

(** [v[k]] for a string key. *)
Definition subscript_key (v : json) (k : string) : M json :=
  match v with
  | JObj fields =>
      match dict_lookup k fields with
      | Some x => ret x
      | None => raise (KeyError k)
      end
  | JArr _ => raise (TypeError "list indices must be integers or slices, not str")
  | JStr _ => raise (TypeError "string indices must be integers")
  | _ => raise (TypeError "object is not subscriptable")
  end.

(** [v[0]]. *)
Definition subscript_zero (v : json) : M json :=
  match v with
  | JArr [] => raise IndexError
  | JArr (x :: _) => ret x
  | JStr EmptyString => raise IndexError
  | JStr (String c _) => ret (JStr (String c EmptyString))
  | JObj _ => raise (KeyError "0")
  | _ => raise (TypeError "object is not subscriptable")
  end.

(** [v + s] for a string [s]: defined on strings only. *)
Definition add_str (v : json) (s : string) : M string :=
  match v with
  | JStr t => ret (t ++ s)
  | _ => raise (TypeError "unsupported operand type(s) for +")
  end.

(** [json_data.get(k, default)]: a method of dicts only. *)
Definition dict_get (v : json) (k : string) (default : json) : M json :=
  match v with
  | JObj fields =>
      match dict_lookup k fields with
      | Some x => ret x
      | None => ret default
      end
  | _ => raise (AttributeError "object has no attribute 'get'")
  end.

(** [response.raise_for_status()]: raises on the 4xx and 5xx codes. *)
Definition raise_for_status (r : Response) : M unit :=
  if ((400 <=? status_code r) && (status_code r <? 600))%Z
  then raise (HTTPError (status_code r))
  else ret tt.

(** [response.json()]. *)
Definition response_json (r : Response) : M json :=
  match body r with
  | Some j => ret j
  | None => raise JSONDecodeError
  end.

(** [row[k]] on a row of a DataFrame. *)
Definition row_get (row : Row) (k : string) : M Cell :=
  match row_lookup k row with
  | Some v => ret v
  | None => raise (KeyError k)
  end.

(* ------------------------------------------------------------------ *)
(** ** tenacity's [@retry] *)

(** [wait_exponential(multiplier=1, min=4, max=10)]: the pause, in seconds,
    after attempt number [attempt_number]. *)
Definition wait_exponential (attempt_number : Z) : Z :=
  Z.max 4 (Z.min (1 * 2 ^ (attempt_number - 1)) 10).

(** The retrying loop: run [f]; when it raises an exception accepted by
    [retry_if_exception_type(RequestException)] and attempts remain, pause and
    run it again; when none remain raise [RetryError]; any other exception
    is re-raised at once.  [more] counts the attempts still allowed after the
    current one. *)
Fixpoint retrying {A} (more : nat) (attempt_number : Z) (f : M A) : M A :=
  try_except f (fun e =>
    if is_RequestException e then
      match more with
      | O => raise (RetryError e)
      | S more' =>
          time_sleep (wait_exponential attempt_number) ;;
          retrying more' (attempt_number + 1) f
      end
    else raise e).

(** [stop_after_attempt(3)]: the first attempt and at most two more. *)
Definition retry {A} (f : M A) : M A := retrying 2 1 f.

(* ------------------------------------------------------------------ *)
(** ** CSV export, as [DataFrame.to_csv(index=False)] writes it

    pandas hands the header and the rows to Python's [csv] writer with its
    defaults: comma as delimiter, the double quote as quote character,
    doubled inside a field, minimal quoting, and (on a POSIX host) ["\n"] as
    line terminator. *)

Definition comma : ascii := ","%char.
Definition dquote : ascii := "034"%char.
Definition newline : ascii := "010"%char.

(** The characters that force a field into quotes: the delimiter, the quote
    character and the line terminator. *)
Definition is_special (c : ascii) : bool :=
  Ascii.eqb c comma || Ascii.eqb c dquote || Ascii.eqb c newline.

Fixpoint needs_quoting (s : string) : bool :=
  match s with
  | EmptyString => false
  | String c rest => is_special c || needs_quoting rest
  end.

(** Every quote character of the field is doubled. *)
Fixpoint double_quotes (s : string) : string :=
  match s with
  | EmptyString => EmptyString
  | String c rest =>
      if Ascii.eqb c dquote then String dquote (String dquote (double_quotes rest))
      else String c (double_quotes rest)
  end.

(** One field under minimal quoting. *)
Definition csv_field (s : string) : string :=
  if needs_quoting s
  then String dquote (double_quotes s ++ String dquote EmptyString)
  else s.

Fixpoint csv_join (fields : list string) : string :=
  match fields with
  | [] => EmptyString
  | [f] => csv_field f
  | f :: rest => csv_field f ++ String comma (csv_join rest)
  end.

(** One record, ended by the line terminator; a record that is one empty
    field is written as a pair of quotes. *)
Definition csv_line (fields : list string) : string :=
  match fields with
  | [EmptyString] => String dquote (String dquote nl)
  | _ => csv_join fields ++ nl
  end.

Fixpoint csv_lines (records : list (list string)) : string :=
  match records with
  | [] => EmptyString
  | r :: rest => csv_line r ++ csv_lines rest
  end.

(** The column labels of a frame; the frame built from no record has none. *)
Definition columns (df : DataFrame) : list string :=
  match df with
  | [] => []
  | row :: _ => map fst row
  end.

(** The text of a cell in the export: a missing value and [None] are
    written as the empty field. *)
Definition csv_text (c : Cell) : string :=
  match c with
  | Text s => s
  | NaN => EmptyString
  | NoneCell => EmptyString
  | Other shown => shown
  end.

(** The header line, then one line per row. *)
Definition to_csv (df : DataFrame) : string :=
  csv_lines (columns df :: map (map (fun kv => csv_text (snd kv))) df).

(* ------------------------------------------------------------------ *)
(** ** The script *)

Definition status_url : string := "https://openrouter.ai/api/v1/auth/key".

Section Script.

Variable env : Env.

Definition requests_post (req : Request) : M Response :=
  fun w =>
    match post_server env (posts w) req with
    | Fails e => (Raise e, posted req w)
    | Answers r => (Ok r, posted req w)
    end.

Definition requests_get (url : string) (headers : list (string * string)) : M Response :=
  fun w =>
    match get_server env (gets w) with
    | Fails e => (Raise e, got url headers w)
    | Answers r => (Ok r, got url headers w)
    end.

(** The bearer credential sent to the account-status endpoint. *)
Definition status_headers : list (string * string) :=
  [ ("Authorization", "Bearer " ++ openrouter_api_key env) ].

(** [check_rate_limits()]: the pair it returns, [JNull] standing for [None]. *)
Definition check_rate_limits : M (json * json) :=
  try_except
    (response <- requests_get status_url status_headers ;;
     if (status_code response =? 200)%Z then
       j <- response_json response ;;
       data <- subscript_key j "data" ;;
       rate_limit <- subscript_key data "rate_limit" ;;
       requests <- subscript_key rate_limit "requests" ;;
       rate_limit' <- subscript_key data "rate_limit" ;;
       interval <- subscript_key rate_limit' "interval" ;;
       ret (requests, interval)
     else
       st_error "Failed to check rate limits. Please try again later." ;;
       ret (JNull, JNull))
    (fun e =>
       st_error ("Error checking rate limits: " ++ exn_str e) ;;
       ret (JNull, JNull)).

Definition prompts : list string :=
  [ "Analyze the headline effectiveness and keyword usage in this ad.";
    "Evaluate the description's informativeness and persuasiveness.";
    "Assess the call-to-action strength and unique selling proposition.";
    "Analyze the ad's relevance to search intent and emotional appeal.";
    "Provide improvement suggestions and key takeaways from this ad." ].

(** The request of one prompt. *)
Definition chat_request (ad_copy search_term prompt : string) : Request :=
  {| req_url := "https://openrouter.ai/api/v1/chat/completions";
     req_headers :=
       [ ("Authorization", "Bearer " ++ openrouter_api_key env);
         ("HTTP-Referer", "https://your-app-url.com");
         ("X-Title", "Ad Copy Analysis App");
         ("Content-Type", "application/json") ];
     req_model := "anthropic/claude-3-opus-20240229";
     req_messages :=
       [ ("system",
          "You are an expert in analyzing Google Ads copy for " ++ search_term ++
          " products. Provide a detailed, insightful analysis that helps advertisers understand why the ad works and how to improve their own ads.");
         ("user",
          "Analyze this Google Ad for " ++ search_term ++ " products:" ++ blank_line ++
          ad_copy ++ blank_line ++ prompt ++ blank_line ++
          "Provide a concise but insightful analysis.") ] |}.

(** The body of the [try] of one prompt: the call, the status check, the
    extraction of the text, and the piece appended to the analysis. *)
Definition prompt_call (ad_copy search_term prompt : string) : M string :=
  response <- requests_post (chat_request ad_copy search_term prompt) ;;
  raise_for_status response ;;
  j <- response_json response ;;
  choices <- subscript_key j "choices" ;;
  choice <- subscript_zero choices ;;
  message <- subscript_key choice "message" ;;
  content <- subscript_key message "content" ;;
  add_str content blank_line.

(** The [for prompt in prompts] loop, from the prompts still to send and
    the text accumulated so far. *)
Fixpoint analyze_prompts (ad_copy search_term : string) (todo : list string)
         (full_analysis : string) : M (option string) :=
  match todo with
  | [] => ret (Some full_analysis)
  | prompt :: rest =>
      step <- try_except
                (piece <- prompt_call ad_copy search_term prompt ;;
                 ret (Some (full_analysis ++ piece)))
                (fun e =>
                   st_error ("Error analyzing ad copy: " ++ exn_str e) ;;
                   ret None) ;;
      match step with
      | None => ret None
      | Some full_analysis' =>
          time_sleep 1 ;;
          analyze_prompts ad_copy search_term rest full_analysis'
      end
  end.

(** The function as written, before decoration. *)
Definition analyze_ad_copy_body (ad_copy search_term : string) : M (option string) :=
  analyze_prompts ad_copy search_term prompts EmptyString.

(** [analyze_ad_copy], as the module exports it: the body under [@retry]. *)
Definition analyze_ad_copy (ad_copy search_term : string) : M (option string) :=
  retry (analyze_ad_copy_body ad_copy search_term).

Definition ad_copy_of (title snippet displayed_link : Cell) : string :=
  "Title: " ++ format_cell title ++ nl ++ "Snippet: " ++ format_cell snippet ++ nl ++
  "Display URL: " ++ format_cell displayed_link.

Definition result_row (title snippet displayed_link : Cell) (analysis : string) : Row :=
  [ ("title", title); ("snippet", snippet);
    ("displayed_link", displayed_link); ("analysis", Text analysis) ].

(** The [for index, row in df.iterrows()] loop, from the rows still to
    visit, the index of the next one and the results appended so far. *)
Fixpoint process_rows (search_term : string) (rows : list Row) (index : nat)
         (results : list Row) : M DataFrame :=
  match rows with
  | [] => ret results
  | row :: rest =>
      title <- row_get row "title" ;;
      snippet <- row_get row "snippet" ;;
      displayed_link <- row_get row "displayed_link" ;;
      analysis <- analyze_ad_copy (ad_copy_of title snippet displayed_link) search_term ;;
      results' <-
        match analysis with
        | Some a =>
            st_success ("Successfully analyzed ad " ++ str_of_nat (index + 1)) ;;
            ret (results ++ [result_row title snippet displayed_link a])%list
        | None =>
            st_error ("Failed to analyze ad " ++ str_of_nat (index + 1)) ;;
            ret results
        end ;;
      time_sleep 1 ;;
      process_rows search_term rest (S index) results'
  end.

Definition process_dataframe (df : DataFrame) (search_term : string) : M DataFrame :=
  process_rows search_term df 0 [].

Definition json_to_dataframe (json_data : json) : M DataFrame :=
  organic_results <- dict_get json_data "organic_results" (JArr []) ;;
  match json_normalize env organic_results with
  | inl e => raise e
  | inr df => ret df
  end.

(** The uploaded file, as [json.load] reads it. *)
Inductive UploadedFile : Type :=
| NotJson
| JsonText (j : json).

Definition json_load (f : UploadedFile) : M json :=
  match f with
  | NotJson => raise JSONDecodeError
  | JsonText j => ret j
  end.

(** The expanders of the result display. *)
Fixpoint show_rows (rows : list Row) (index : nat) : M unit :=
  match rows with
  | [] => ret tt
  | row :: rest =>
      title <- row_get row "title" ;;
      analysis <- row_get row "analysis" ;;
      emit (StExpander ("Analysis for Ad " ++ str_of_nat (index + 1) ++ ": " ++
                        format_cell title) analysis) ;;
      show_rows rest (S index)
  end.

(** The display and the download offer, when the session holds results. *)
Definition show_results : M unit :=
  r <- get_session_results ;;
  match r with
  | None => ret tt
  | Some results =>
      emit (StWrite "Analysis Results:") ;;
      show_rows results 0 ;;
      emit (StDownload (to_csv results))
  end.

Definition is_None (v : json) : bool :=
  match v with JNull => true | _ => false end.

(** The [try] block of [main] for an uploaded file and a search term. *)
Definition main_upload (uploaded_file : UploadedFile) (search_term : string)
           (analyze_clicked : bool) : M unit :=
  try_except
    (json_data <- json_load uploaded_file ;;
     df <- json_to_dataframe json_data ;;
     emit (StWrite "Converted JSON data:") ;;
     emit (StWriteFrame df) ;;
     if analyze_clicked then
       limits <- check_rate_limits ;;
       if is_None (fst limits) then ret tt
       else
         results_df <- process_dataframe df search_term ;;
         set_session_results (Some results_df) ;;
         st_success ("Analysis complete! Successfully analyzed " ++
                     str_of_nat (List.length results_df) ++ " ads.") ;;
         show_results
     else show_results)
    (fun e =>
       st_error ("An error occurred while processing the file: " ++ exn_str e)).

(** [main] for a logged-in session (the login form and the logout button
    are left out). *)
Definition main (uploaded_file : option UploadedFile) (search_term : string)
           (analyze_clicked : bool) : M unit :=
  match uploaded_file, search_term with
  | Some f, String _ _ => main_upload f search_term analyze_clicked
  | _, _ => ret tt
  end.

End Script.

(* ------------------------------------------------------------------ *)
(** ** Vocabulary of the properties *)

(** The text of a completion body [{choices: [{message: {content}}]}]. *)
Definition content_of (j : json) : option string :=
  match j with
  | JObj top =>
      match dict_lookup "choices" top with
      | Some (JArr (JObj choice :: _)) =>
          match dict_lookup "message" choice with
          | Some (JObj message) =>
              match dict_lookup "content" message with
              | Some (JStr t) => Some t
              | _ => None
              end
          | _ => None
          end
      | _ => None
      end
  | _ => None
  end.

(** The response text a prompt call gets out of what the endpoint does, if
    any: the call is answered, the status is none that [raise_for_status]
    rejects, and the body has the completion shape. *)
Definition answer_text (o : HttpOutcome) : option string :=
  match o with
  | Fails _ => None
  | Answers r =>
      if ((400 <=? status_code r) && (status_code r <? 600))%Z then None
      else match body r with
           | Some j => content_of j
           | None => None
           end
  end.

(** What the endpoint does at the [k]-th prompt call (from 0) of an analysis
    that starts in world [w]. *)
Definition call_outcome (env : Env) (ad_copy search_term : string) (w : World)
           (k : nat) : HttpOutcome :=
  post_server env (posts w + k)
    (chat_request env ad_copy search_term (nth k prompts EmptyString)).

Definition is_2xx (status : Z) : bool := ((200 <=? status) && (status <? 300))%Z.

(** A failed call in the words of the specification: a network exception,
    a non-2xx status, or a 2xx response whose body lacks the expected shape. *)
Definition spec_call_failure (o : HttpOutcome) : bool :=
  match o with
  | Fails _ => true
  | Answers r =>
      if is_2xx (status_code r)
      then match body r with
           | Some j => match content_of j with Some _ => false | None => true end
           | None => true
           end
      else true
  end.

(** The pair of an account-status body [{data: {rate_limit: {requests, interval}}}]. *)
Definition rate_limit_of (j : json) : option (json * json) :=
  match j with
  | JObj top =>
      match dict_lookup "data" top with
      | Some (JObj data) =>
          match dict_lookup "rate_limit" data with
          | Some (JObj rate_limit) =>
              match dict_lookup "requests" rate_limit, dict_lookup "interval" rate_limit with
              | Some requests, Some interval => Some (requests, interval)
              | _, _ => None
              end
          | _ => None
          end
      | _ => None
      end
  | _ => None
  end.

(** The pair the probe can extract from what the account-status endpoint
    does: present for an HTTP 200 whose body has the shape. *)
Definition probe_pair (o : HttpOutcome) : option (json * json) :=
  match o with
  | Fails _ => None
  | Answers r =>
      if (status_code r =? 200)%Z
      then match body r with
           | Some j => rate_limit_of j
           | None => None
           end
      else None
  end.

(** The pair the probe returns for what the endpoint does. *)
Definition probe_result (o : HttpOutcome) : json * json :=
  match probe_pair o with
  | Some p => p
  | None => (JNull, JNull)
  end.

(** A row with the three columns of an ad record. *)
Definition has_ad_columns (row : Row) : bool :=
  match row_lookup "title" row, row_lookup "snippet" row, row_lookup "displayed_link" row with
  | Some _, Some _, Some _ => true
  | _, _, _ => false
  end.

Definition ad_copy_of_row (row : Row) : string :=
  match row_lookup "title" row, row_lookup "snippet" row, row_lookup "displayed_link" row with
  | Some t, Some s, Some d => ad_copy_of t s d
  | _, _, _ => EmptyString
  end.

(** The analysis result of a record and its analysis: the record's title,
    snippet and displayed link, as the record holds them, and the analysis
    text, under these four labels in this order. *)
Definition result_of (row : Row) (analysis : string) : Row :=
  match row_lookup "title" row, row_lookup "snippet" row, row_lookup "displayed_link" row with
  | Some t, Some s, Some d =>
      [ ("title", t); ("snippet", s); ("displayed_link", d);
        ("analysis", Text analysis) ]
  | _, _, _ => []
  end.

(** A row of the shape that [process_dataframe] appends: a title, a
    snippet, a displayed link and the text of an analysis. *)
Definition is_result_row (row : Row) : Prop :=
  exists t s d a,
    row = [ ("title", t); ("snippet", s); ("displayed_link", d);
            ("analysis", Text a) ].

(** The world after the notification and the pause that follow the analysis
    of the record at [index]. *)
Definition after_record (index : nat) (analysis : option string) (w : World) : World :=
  log (Sleep 1)
    (log (match analysis with
          | Some _ => StSuccess ("Successfully analyzed ad " ++ str_of_nat (index + 1))
          | None => StError ("Failed to analyze ad " ++ str_of_nat (index + 1))
          end) w).

(** The analyzer's answer for each record of a batch, in input order, each
    taken in the world the batch has reached when the record's turn comes. *)
Fixpoint analyzer_answers (env : Env) (search_term : string) (rows : list Row)
         (index : nat) (w : World) : list (option string) :=
  match rows with
  | [] => []
  | row :: rest =>
      let run := analyze_ad_copy env (ad_copy_of_row row) search_term w in
      let answer := match fst run with Ok a => a | Raise _ => None end in
      answer :: analyzer_answers env search_term rest (S index)
                  (after_record index answer (snd run))
  end.

(** The world a batch ends in. *)
Fixpoint after_batch (env : Env) (search_term : string) (rows : list Row)
         (index : nat) (w : World) : World :=
  match rows with
  | [] => w
  | row :: rest =>
      let run := analyze_ad_copy env (ad_copy_of_row row) search_term w in
      let answer := match fst run with Ok a => a | Raise _ => None end in
      after_batch env search_term rest (S index) (after_record index answer (snd run))
  end.

(** One result row per record whose answer is present, in input order. *)
Fixpoint kept_rows (rows : list Row) (answers : list (option string)) : list Row :=
  match rows, answers with
  | row :: rows', Some a :: answers' => result_of row a :: kept_rows rows' answers'
  | _ :: rows', None :: answers' => kept_rows rows' answers'
  | _, _ => []
  end.

Definition count_present (answers : list (option string)) : nat :=
  List.length (filter (fun a => match a with Some _ => true | None => false end) answers).

(** The texts between the blank lines of a string, as [s.split("\n\n")]
    gives them; [cur] is the segment read so far. *)
Fixpoint segments_from (cur : string) (s : string) : list string :=
  match s with
  | EmptyString => [cur]
  | String c rest =>
      match rest with
      | EmptyString => [cur ++ String c EmptyString]
      | String c' rest' =>
          if Ascii.eqb c newline && Ascii.eqb c' newline
          then cur :: segments_from EmptyString rest'
          else segments_from (cur ++ String c EmptyString) rest
      end
  end.

Definition segments (s : string) : list string := segments_from EmptyString s.

Definition nonempty (s : string) : bool :=
  match s with EmptyString => false | String _ _ => true end.

Definition nonempty_segments (s : string) : list string := filter nonempty (segments s).

(** A text with no blank line inside and no newline at its end. *)
Fixpoint tidy (t : string) : bool :=
  match t with
  | EmptyString => true
  | String c rest =>
      match rest with
      | EmptyString => negb (Ascii.eqb c newline)
      | String c' _ => negb (Ascii.eqb c newline && Ascii.eqb c' newline) && tidy rest
      end
  end.

(** The five texts, each followed by a blank line. *)
Fixpoint each_followed_by_blank_line (texts : list string) : string :=
  match texts with
  | [] => EmptyString
  | t :: rest => t ++ blank_line ++ each_followed_by_blank_line rest
  end.

(** The expected structure of an upload in the words of the specification:
    a document with a list field [organic_results], each element having at
    least [title], [snippet] and [displayed_link]. *)
Definition is_ad_object (j : json) : bool :=
  match j with
  | JObj fields =>
      match dict_lookup "title" fields, dict_lookup "snippet" fields,
            dict_lookup "displayed_link" fields with
      | Some _, Some _, Some _ => true
      | _, _, _ => false
      end
  | _ => false
  end.

Definition expected_structure (f : UploadedFile) : bool :=
  match f with
  | JsonText (JObj fields) =>
      match dict_lookup "organic_results" fields with
      | Some (JArr items) => forallb is_ad_object items
      | _ => false
      end
  | _ => false
  end.

(** An upload that [json.load] rejects or whose top-level value is no dict. *)
Definition unreadable (f : UploadedFile) : bool :=
  match f with
  | NotJson => true
  | JsonText (JObj _) => false
  | JsonText _ => true
  end.

Definition is_StError (ev : Event) : bool :=
  match ev with StError _ => true | _ => false end.

Definition is_Sleep (ev : Event) : bool :=
  match ev with Sleep _ => true | _ => false end.

(* ------------------------------------------------------------------ *)
(** ** Reading the export back *)

(** Modelled from the spec: the re-parsing of the exported text.  The
    repository only writes the export and holds no reader of it; this is a
    reader of comma-separated text in the dialect of the writer: fields
    separated by commas, records ended by a newline, a field that opens with
    a quote runs to the closing quote, a doubled quote inside it standing
    for one quote.  Every field is read as text. *)
Inductive ReadState : Type :=
| InField                                  (* in a field that is not quoted *)
| InQuoted                                 (* inside the quotes of a field *)
| QuoteSeen.                               (* after a quote inside a quoted field *)

(** Modelled from the spec: the record closed by a line end, from its last
    field and its earlier fields (latest first); an empty line is a record
    of no field. *)
Definition close_record (st : ReadState) (field : string) (earlier : list string)
  : list string :=
  match st, field, earlier with
  | InField, EmptyString, [] => []
  | _, _, _ => List.rev (field :: earlier)
  end.

(** Modelled from the spec: the reader's loop over the characters of the
    text, from the state, the field read so far and the earlier fields of
    the record. *)
Fixpoint read_records (st : ReadState) (field : string) (earlier : list string)
         (s : string) : list (list string) :=
  match s with
  | EmptyString =>
      match st, field, earlier with
      | InField, EmptyString, [] => []
      | _, _, _ => [List.rev (field :: earlier)]
      end
  | String c rest =>
      match st with
      | InField =>
          if Ascii.eqb c comma then read_records InField EmptyString (field :: earlier) rest
          else if Ascii.eqb c newline
               then close_record InField field earlier
                      :: read_records InField EmptyString [] rest
          else if Ascii.eqb c dquote && negb (nonempty field)
               then read_records InQuoted EmptyString earlier rest
          else read_records InField (field ++ String c EmptyString) earlier rest
      | InQuoted =>
          if Ascii.eqb c dquote then read_records QuoteSeen field earlier rest
          else read_records InQuoted (field ++ String c EmptyString) earlier rest
      | QuoteSeen =>
          if Ascii.eqb c dquote
          then read_records InQuoted (field ++ String dquote EmptyString) earlier rest
          else if Ascii.eqb c comma
               then read_records InField EmptyString (field :: earlier) rest
          else if Ascii.eqb c newline
               then close_record QuoteSeen field earlier
                      :: read_records InField EmptyString [] rest
          else read_records InField (field ++ String c EmptyString) earlier rest
      end
  end.

(** Modelled from the spec: the records of a text. *)
Definition parse_csv (s : string) : list (list string) :=
  read_records InField EmptyString [] s.

(** Modelled from the spec: the table of a text, the first record giving
    the column labels of the others; every cell is a text. *)
Definition read_csv (s : string) : DataFrame :=
  match parse_csv s with
  | [] => []
  | header :: records => map (fun r => combine header (map Text r)) records
  end.

(** The row with every cell as the text that the export writes for it. *)
Definition as_text (row : Row) : Row :=
  map (fun kv => (fst kv, Text (csv_text (snd kv)))) row.

Definition is_text (c : Cell) : bool :=
  match c with Text _ => true | _ => false end.

(** A table all of whose cells are texts. *)
Definition all_text (df : DataFrame) : bool :=
  forallb (forallb (fun kv => is_text (snd kv))) df.

(* ------------------------------------------------------------------ *)
(** ** Sample environments *)

Definition completion (text : string) : json :=
  JObj [("choices", JArr [JObj [("message", JObj [("content", JStr text)])]])].

Definition account_status : json :=
  JObj [("data", JObj [("rate_limit",
          JObj [("requests", JInt 200); ("interval", JStr "10s")])])].

Definition answer (status : Z) (b : option json) : HttpOutcome :=
  Answers {| status_code := status; body := b |}.

(** A sample normaliser, for lists of flat objects: the columns are the
    keys of the objects in order of first appearance; a record that lacks a
    key has the missing value in its column; a string is a text, a null is
    [None], the other scalars are shown as Python shows them (nested values
    schematically). *)
Definition cell_of_json (j : json) : Cell :=
  match j with
  | JStr s => Text s
  | JNull => NoneCell
  | JBool true => Other "True"
  | JBool false => Other "False"
  | JInt n => Other (NilEmpty.string_of_int (Z.to_int n))
  | JFloat literal => Other literal
  | JArr _ => Other "[...]"
  | JObj _ => Other "{...}"
  end.

Definition keys_of (j : json) : list string :=
  match j with
  | JObj fields => map fst fields
  | _ => []
  end.

Definition add_key (seen : list string) (k : string) : list string :=
  if existsb (String.eqb k) seen then seen else (seen ++ [k])%list.

Definition all_columns (items : list json) : list string :=
  fold_left (fun seen j => fold_left add_key (keys_of j) seen) items [].

Definition flat_row (labels : list string) (j : json) : Row :=
  map (fun k => (k, match j with
                    | JObj fields =>
                        match dict_lookup k fields with
                        | Some v => cell_of_json v
                        | None => NaN
                        end
                    | _ => NaN
                    end)) labels.

Definition normalize_flat (j : json) : Exn + DataFrame :=
  match j with
  | JArr items => inr (map (flat_row (all_columns items)) items)
  | JObj _ => inr [flat_row (all_columns [j]) j]
  | _ => inl NotImplementedError
  end.

(** The provider answers every prompt with HTTP 200 and the text [texts n]
    for the n-th call, and the probe with a well-formed account status. *)
Definition healthy (texts : nat -> string) : Env :=
  {| openrouter_api_key := "sk-test";
     post_server := fun n _ => answer 200 (Some (completion (texts n)));
     get_server := fun _ => answer 200 (Some account_status);
     json_normalize := normalize_flat |}.

(** As [healthy], except that the n-th prompt call ends as [o]. *)
Definition healthy_except (n : nat) (o : HttpOutcome) (texts : nat -> string) : Env :=
  {| openrouter_api_key := "sk-test";
     post_server := fun m _ => if Nat.eqb m n then o
                               else answer 200 (Some (completion (texts m)));
     get_server := fun _ => answer 200 (Some account_status);
     json_normalize := normalize_flat |}.

(** As [healthy], except that the probe ends as [o]. *)
Definition probe_ends (o : HttpOutcome) (texts : nat -> string) : Env :=
  {| openrouter_api_key := "sk-test";
     post_server := fun n _ => answer 200 (Some (completion (texts n)));
     get_server := fun _ => o;
     json_normalize := normalize_flat |}.

Definition widgets_row : Row :=
  [("title", Text "Buy Widgets"); ("snippet", Text "Best widgets online");
   ("displayed_link", Text "widgets.com")].

Definition widgets_document : json :=
  JObj [("organic_results",
         JArr [JObj [("title", JStr "Buy Widgets");
                     ("snippet", JStr "Best widgets online");
                     ("displayed_link", JStr "widgets.com")]])].

Definition three_ads : DataFrame :=
  [ widgets_row;
    [("title", Text "Cheap Gadgets"); ("snippet", Text "Gadgets on sale");
     ("displayed_link", Text "gadgets.example")];
    [("title", Text "Gizmo World"); ("snippet", Text "All the gizmos");
     ("displayed_link", Text "gizmo.example")] ].

Definition five_texts (n : nat) : string :=
  match n with
  | 0 => "headline" | 1 => "description" | 2 => "call to action"
  | 3 => "relevance" | _ => "takeaways"
  end.

(** Response texts with commas and quotes in them. *)
Definition quoting_texts (n : nat) : string :=
  match n with
  | 0 => "Clear, short headline" ++ String dquote ("Buy Widgets" ++ String dquote EmptyString)
  | 1 => String dquote EmptyString
  | _ => five_texts n
  end.

(* ------------------------------------------------------------------ *)
(** ** The login form and the logout button *)

(** The login secrets of [st.secrets]. *)
Record Secrets : Type := {
  login_username : string;
  login_password : string
}.

Definition authenticate (secrets : Secrets) (username password : string) : bool :=
  String.eqb username (login_username secrets)
  && String.eqb password (login_password secrets).

(** What the user has entered and pressed when the script runs. *)
Record Widgets : Type := {
  username_input : string;
  password_input : string;
  login_clicked : bool;                    (* the form's submit button *)
  file_input : option UploadedFile;        (* st.file_uploader *)
  search_term_input : string;
  analyze_clicked : bool;                  (* st.button("Analyze Ads") *)
  logout_clicked : bool                    (* st.sidebar.button("Logout") *)
}.

(** How a run of the script ends: at its last line (or a [return]), or with
    [st.rerun()]. *)
Inductive RunEnd : Type :=
| Completed
| Rerun.

(** The block of [main] under the file uploader; the result tells whether
    the [return] after a failed probe was taken. *)
Definition upload_block (env : Env) (uploaded_file : option UploadedFile)
           (search_term : string) (clicked : bool) : M bool :=
  match uploaded_file, search_term with
  | Some f, String _ _ =>
      try_except
        (json_data <- json_load f ;;
         df <- json_to_dataframe env json_data ;;
         emit (StWrite "Converted JSON data:") ;;
         emit (StWriteFrame df) ;;
         if clicked then
           limits <- check_rate_limits env ;;
           if is_None (fst limits) then ret true
           else
             results_df <- process_dataframe env df search_term ;;
             set_session_results (Some results_df) ;;
             st_success ("Analysis complete! Successfully analyzed " ++
                         str_of_nat (List.length results_df) ++ " ads.") ;;
             show_results ;;
             ret false
         else
           show_results ;;
           ret false)
        (fun e =>
           st_error ("An error occurred while processing the file: " ++ exn_str e) ;;
           ret false)
  | _, _ => ret false
  end.

(** The whole of [main] (the page title apart): from the session's
    [logged_in] flag to how the run ends and the flag it leaves. *)
Definition main_session (env : Env) (secrets : Secrets) (ui : Widgets)
           (logged_in : bool) : M (RunEnd * bool) :=
  if negb logged_in then
    if login_clicked ui then
      if authenticate secrets (username_input ui) (password_input ui)
      then ret (Rerun, true)
      else
        st_error "Invalid username or password" ;;
        ret (Completed, false)
    else ret (Completed, false)
  else
    returned <- upload_block env (file_input ui) (search_term_input ui)
                  (analyze_clicked ui) ;;
    if returned then ret (Completed, true)
    else if logout_clicked ui then
      set_session_results None ;;
      ret (Rerun, false)
    else ret (Completed, true).

(* ------------------------------------------------------------------ *)
(** ** Reading a trace *)

(** The world after [n] more chat-completion calls and the events [evs]. *)
Definition advance (n : nat) (evs : list Event) (w : World) : World :=
  {| posts := n + posts w; gets := gets w;
     trace := trace w ++ evs;
     session_results := session_results w |}.

(** The world with other stored results. *)
Definition store (r : option DataFrame) (w : World) : World :=
  {| posts := posts w; gets := gets w; trace := trace w; session_results := r |}.

(** The requests posted, the pauses taken and the messages shown, in order. *)
Definition posted_requests (evs : list Event) : list Request :=
  flat_map (fun ev => match ev with Post req => [req] | _ => [] end) evs.

Definition pauses (evs : list Event) : list Z :=
  flat_map (fun ev => match ev with Sleep seconds => [seconds] | _ => [] end) evs.

Definition errors_shown (evs : list Event) : list string :=
  flat_map (fun ev => match ev with StError msg => [msg] | _ => [] end) evs.

Definition successes_shown (evs : list Event) : list string :=
  flat_map (fun ev => match ev with StSuccess msg => [msg] | _ => [] end) evs.

(** The per-record notifications of a batch: its success messages and its
    ["Failed to analyze ad ..."] errors. *)
Definition is_record_notice (ev : Event) : bool :=
  match ev with
  | StSuccess _ => true
  | StError msg => String.prefix "Failed to analyze ad " msg
  | _ => false
  end.

Definition record_notices (evs : list Event) : list Event := filter is_record_notice evs.

(** The notification of each record, by its position in the input (from
    [index + 1]) and the analyzer's answer for it. *)
Fixpoint notices_of (index : nat) (answers : list (option string)) : list Event :=
  match answers with
  | [] => []
  | Some _ :: rest =>
      StSuccess ("Successfully analyzed ad " ++ str_of_nat (index + 1))
        :: notices_of (S index) rest
  | None :: rest =>
      StError ("Failed to analyze ad " ++ str_of_nat (index + 1))
        :: notices_of (S index) rest
  end.

(** The first of the three columns that a row lacks. *)
Definition first_missing_column (row : Row) : option string :=
  match row_lookup "title" row with
  | None => Some "title"
  | Some _ =>
      match row_lookup "snippet" row with
      | None => Some "snippet"
      | Some _ =>
          match row_lookup "displayed_link" row with
          | None => Some "displayed_link"
          | Some _ => None
          end
      end
  end.

(** The expanders of a result table, one per row, labelled from [index + 1]. *)
Fixpoint expanders (rows : list Row) (index : nat) : list Event :=
  match rows with
  | [] => []
  | row :: rest =>
      match row_lookup "title" row, row_lookup "analysis" row with
      | Some title, Some analysis =>
          StExpander ("Analysis for Ad " ++ str_of_nat (index + 1) ++ ": " ++
                      format_cell title)
            analysis :: expanders rest (S index)
      | _, _ => []
      end
  end.

(** What the result display shows for a stored table. *)
Definition results_display (results : DataFrame) : list Event :=
  (StWrite "Analysis Results:" :: expanders results 0 ++ [StDownload (to_csv results)])%list.

(** Stored results are rows that [process_dataframe] appended. *)
Definition results_well_formed (w : World) : Prop :=
  match session_results w with
  | None => True
  | Some results => Forall is_result_row results
  end.

(** A session that is logged out, with the login form left alone. *)
Definition idle_form (uploaded_file : option UploadedFile) (search_term : string)
           (analyze logout : bool) : Widgets :=
  {| username_input := EmptyString; password_input := EmptyString;
     login_clicked := false;
     file_input := uploaded_file; search_term_input := search_term;
     analyze_clicked := analyze; logout_clicked := logout |}.

Definition sample_secrets : Secrets :=
  {| login_username := "admin"; login_password := "s3cret" |}.

(* ================================================================== *)
(** * Properties *)

(** ** The monad *)

Lemma bind_ok {A B} (m : M A) (k : A -> M B) w a w' :
  m w = (Ok a, w') -> bind m k w = k a w'.
Proof. intros H. unfold bind. now rewrite H. Qed.

Lemma bind_raise {A B} (m : M A) (k : A -> M B) w e w' :
  m w = (Raise e, w') -> bind m k w = (Raise e, w').
Proof. intros H. unfold bind. now rewrite H. Qed.

Lemma try_except_ok {A} (body : M A) handler w a w' :
  body w = (Ok a, w') -> try_except body handler w = (Ok a, w').
Proof. intros H. unfold try_except. now rewrite H. Qed.

Lemma try_except_raise {A} (body : M A) handler w e w' :
  body w = (Raise e, w') -> try_except body handler w = handler e w'.
Proof. intros H. unfold try_except. now rewrite H. Qed.

(** A function that returns is run once by [@retry]. *)
Lemma retrying_returns {A} (f : M A) more n w a w' :
  f w = (Ok a, w') -> retrying more n f w = (Ok a, w').
Proof. intros H. destruct more; simpl; now apply try_except_ok. Qed.

Lemma retry_returns {A} (f : M A) w a w' :
  f w = (Ok a, w') -> retry f w = (Ok a, w').
Proof. apply retrying_returns. Qed.

(** ** One prompt call *)

Section PromptCall.

Variable env : Env.
Variables ad_copy search_term : string.

Let request (prompt : string) : Request := chat_request env ad_copy search_term prompt.

Lemma dict_subscript fields k :
  forall w, subscript_key (JObj fields) k w =
            match dict_lookup k fields with
            | Some x => (Ok x, w)
            | None => (Raise (KeyError k), w)
            end.
Proof. intros w. unfold subscript_key. now destruct (dict_lookup k fields). Qed.

(** The text is extracted exactly from the bodies of the completion shape. *)
Lemma extraction_ok j t w :
  content_of j = Some t ->
  (choices <- subscript_key j "choices" ;;
   choice <- subscript_zero choices ;;
   message <- subscript_key choice "message" ;;
   content <- subscript_key message "content" ;;
   add_str content blank_line) w = (Ok (t ++ blank_line), w).
Proof.
  unfold content_of. intros H.
  destruct j as [| | | | |items|top]; try discriminate.
  destruct (dict_lookup "choices" top) as [[| | | | |[|[| | | | | |choice] others]|]|] eqn:Hc;
    try discriminate.
  destruct (dict_lookup "message" choice) as [[| | | | | |message]|] eqn:Hm;
    try discriminate.
  destruct (dict_lookup "content" message) as [[| | | |s| |]|] eqn:Hs;
    try discriminate.
  injection H as ->.
  unfold bind. rewrite dict_subscript, Hc. cbn [subscript_zero ret].
  rewrite dict_subscript, Hm. rewrite dict_subscript, Hs. reflexivity.
Qed.

Lemma extraction_fails j w :
  content_of j = None ->
  exists e,
    (choices <- subscript_key j "choices" ;;
     choice <- subscript_zero choices ;;
     message <- subscript_key choice "message" ;;
     content <- subscript_key message "content" ;;
     add_str content blank_line) w = (Raise e, w).
Proof.
  unfold content_of. intros H.
  destruct j as [| | | | |items|top]; try (eexists; reflexivity).
  unfold bind. rewrite dict_subscript.
  destruct (dict_lookup "choices" top) as [choices|]; [|eexists; reflexivity].
  destruct choices as [| | | |s|[|choice others]|];
    try (eexists; reflexivity).
  - destruct s; eexists; reflexivity.
  - cbn [subscript_zero ret].
    destruct choice as [| | | | | |choice]; try (eexists; reflexivity).
    rewrite dict_subscript.
    destruct (dict_lookup "message" choice) as [message|]; [|eexists; reflexivity].
    destruct message as [| | | | | |message]; try (eexists; reflexivity).
    rewrite dict_subscript.
    destruct (dict_lookup "content" message) as [content|]; [|eexists; reflexivity].
    destruct content; try discriminate; eexists; reflexivity.
Qed.

Lemma prompt_call_answered prompt w t :
  answer_text (post_server env (posts w) (request prompt)) = Some t ->
  prompt_call env ad_copy search_term prompt w
  = (Ok (t ++ blank_line), posted (request prompt) w).
Proof.
  unfold answer_text, prompt_call, request. intros H.
  unfold bind at 1. unfold requests_post.
  destruct (post_server env (posts w) _) as [e|r]; [discriminate|].
  unfold bind at 1. unfold raise_for_status.
  destruct ((400 <=? status_code r) && (status_code r <? 600))%Z; [discriminate|].
  unfold ret. unfold bind at 1. unfold response_json.
  destruct (body r) as [j|]; [|discriminate].
  unfold ret. now apply extraction_ok.
Qed.

Lemma prompt_call_failed prompt w :
  answer_text (post_server env (posts w) (request prompt)) = None ->
  exists e, prompt_call env ad_copy search_term prompt w
            = (Raise e, posted (request prompt) w).
Proof.
  unfold answer_text, prompt_call, request. intros H.
  unfold bind at 1. unfold requests_post.
  destruct (post_server env (posts w) _) as [e|r]; [eexists; reflexivity|].
  unfold bind at 1. unfold raise_for_status.
  destruct ((400 <=? status_code r) && (status_code r <? 600))%Z;
    [eexists; reflexivity|].
  unfold ret. unfold bind at 1. unfold response_json.
  destruct (body r) as [j|]; [|eexists; reflexivity].
  unfold ret. now apply extraction_fails.
Qed.

(** ** The loop over the prompts *)

Lemma analyze_prompts_answered prompt rest acc w t :
  answer_text (post_server env (posts w) (request prompt)) = Some t ->
  analyze_prompts env ad_copy search_term (prompt :: rest) acc w
  = analyze_prompts env ad_copy search_term rest (acc ++ t ++ blank_line)
      (log (Sleep 1) (posted (request prompt) w)).
Proof.
  intros H. apply prompt_call_answered in H. simpl.
  erewrite bind_ok.
  2:{ apply try_except_ok. erewrite bind_ok by exact H. reflexivity. }
  reflexivity.
Qed.

Lemma analyze_prompts_failed prompt rest acc w :
  answer_text (post_server env (posts w) (request prompt)) = None ->
  exists e,
    analyze_prompts env ad_copy search_term (prompt :: rest) acc w
    = (Ok None, log (StError ("Error analyzing ad copy: " ++ exn_str e))
                    (posted (request prompt) w)).
Proof.
  intros H. apply prompt_call_failed in H. destruct H as [e H].
  exists e. simpl.
  erewrite bind_ok.
  2:{ erewrite try_except_raise.
      2:{ erewrite bind_raise by exact H. reflexivity. }
      reflexivity. }
  reflexivity.
Qed.

(** The loop returns, whatever the endpoint does: no exception leaves it. *)
Lemma analyze_prompts_returns todo :
  forall acc w, exists r w',
    analyze_prompts env ad_copy search_term todo acc w = (Ok r, w').
Proof.
  induction todo as [|prompt rest IH]; intros acc w.
  - eexists; eexists; reflexivity.
  - destruct (answer_text (post_server env (posts w) (request prompt))) as [t|] eqn:H.
    + rewrite (analyze_prompts_answered _ _ _ _ H). apply IH.
    + destruct (analyze_prompts_failed prompt rest acc w H) as [e He].
      rewrite He. eexists; eexists; reflexivity.
Qed.

End PromptCall.

(** The decorated function does what its body does: the retry never fires. *)
Lemma analyze_ad_copy_is_body env ad_copy search_term w :
  analyze_ad_copy env ad_copy search_term w
  = analyze_ad_copy_body env ad_copy search_term w.
Proof.
  unfold analyze_ad_copy, analyze_ad_copy_body.
  destruct (analyze_prompts_returns env ad_copy search_term prompts EmptyString w)
    as (r & w' & H).
  rewrite H. now apply retry_returns.
Qed.

Lemma append_empty_r (s : string) : s ++ EmptyString = s.
Proof. induction s; simpl; congruence. Qed.

Lemma append_assoc (s t u : string) : (s ++ t) ++ u = s ++ t ++ u.
Proof. induction s; simpl; congruence. Qed.

(** ** Counting the calls of one analysis *)

Section Analyze.

Variable env : Env.
Variables ad_copy search_term : string.

(** What the endpoint does at the [k]-th call of a loop over [todo] that
    starts in [w]. *)
Let outcome (todo : list string) (w : World) (k : nat) : HttpOutcome :=
  post_server env (posts w + k)
    (chat_request env ad_copy search_term (nth k todo EmptyString)).

Let loop := analyze_prompts env ad_copy search_term.

Lemma outcome_head prompt rest w :
  outcome (prompt :: rest) w 0
  = post_server env (posts w) (chat_request env ad_copy search_term prompt).
Proof. unfold outcome. now rewrite Nat.add_0_r. Qed.

Lemma outcome_tail prompt rest w ev k :
  outcome rest (log ev (posted (chat_request env ad_copy search_term prompt) w)) k
  = outcome (prompt :: rest) w (S k).
Proof. unfold outcome. simpl. now rewrite Nat.add_succ_r. Qed.

(** When every call is answered with a text, the loop issues one call per
    prompt and returns the texts, each followed by a blank line. *)
Lemma loop_all_answered todo :
  forall texts acc w,
    List.length texts = List.length todo ->
    (forall k, k < List.length todo ->
               answer_text (outcome todo w k) = Some (nth k texts EmptyString)) ->
    exists w',
      loop todo acc w = (Ok (Some (acc ++ each_followed_by_blank_line texts)), w')
      /\ posts w' = posts w + List.length todo.
Proof.
  induction todo as [|prompt rest IH]; intros texts acc w Hlen Hall.
  - destruct texts; [|discriminate]. exists w. simpl.
    rewrite Nat.add_0_r, append_empty_r. split; reflexivity.
  - destruct texts as [|t texts]; [discriminate|].
    assert (H0 := Hall 0 (Nat.lt_0_succ _)). rewrite outcome_head in H0. simpl in H0.
    unfold loop. rewrite (analyze_prompts_answered _ _ _ _ _ _ _ H0).
    destruct (IH texts (acc ++ t ++ blank_line)
                 (log (Sleep 1) (posted (chat_request env ad_copy search_term prompt) w)))
      as (w' & Hrun & Hposts).
    + simpl in Hlen. lia.
    + intros k Hk. rewrite outcome_tail. apply (Hall (S k)). simpl. lia.
    + exists w'. unfold loop in Hrun. rewrite Hrun. split.
      * do 3 f_equal. simpl.
        rewrite !append_assoc. reflexivity.
      * rewrite Hposts. simpl. lia.
Qed.

(** When call [j] is the first that fails, the loop issues [j + 1] calls and
    returns [None]. *)
Lemma loop_first_failure todo :
  forall j acc w,
    j < List.length todo ->
    (forall k, k < j -> answer_text (outcome todo w k) <> None) ->
    answer_text (outcome todo w j) = None ->
    exists w', loop todo acc w = (Ok None, w') /\ posts w' = posts w + S j.
Proof.
  induction todo as [|prompt rest IH]; intros j acc w Hj Hbefore Hfail.
  - simpl in Hj. lia.
  - destruct j as [|j].
    + rewrite outcome_head in Hfail.
      destruct (analyze_prompts_failed env ad_copy search_term prompt rest acc w Hfail)
        as [e He].
      unfold loop. rewrite He. eexists. split; [reflexivity|]. simpl. lia.
    + assert (H0 := Hbefore 0 (Nat.lt_0_succ _)). rewrite outcome_head in H0.
      destruct (answer_text _) as [t|] eqn:Ht in H0; [|congruence].
      unfold loop. rewrite (analyze_prompts_answered _ _ _ _ _ _ _ Ht).
      destruct (IH j (acc ++ t ++ blank_line)
                   (log (Sleep 1) (posted (chat_request env ad_copy search_term prompt) w)))
        as (w' & Hrun & Hposts).
      * simpl in Hj. lia.
      * intros k Hk. rewrite outcome_tail. apply Hbefore. lia.
      * rewrite outcome_tail. exact Hfail.
      * exists w'. split; [exact Hrun|]. rewrite Hposts. simpl. lia.
Qed.

(** A loop that returns a text had every one of its calls answered. *)
Lemma loop_text_all_answered todo :
  forall acc w a w',
    loop todo acc w = (Ok (Some a), w') ->
    forall k, k < List.length todo -> answer_text (outcome todo w k) <> None.
Proof.
  induction todo as [|prompt rest IH]; intros acc w a w' Hrun k Hk.
  - simpl in Hk. lia.
  - destruct (answer_text (post_server env (posts w)
                (chat_request env ad_copy search_term prompt))) as [t|] eqn:Ht.
    + unfold loop in Hrun. rewrite (analyze_prompts_answered _ _ _ _ _ _ _ Ht) in Hrun.
      destruct k as [|k].
      * rewrite outcome_head, Ht. discriminate.
      * rewrite <- outcome_tail with (ev := Sleep 1).
        eapply IH; [exact Hrun|]. simpl in Hk. lia.
    + destruct (analyze_prompts_failed env ad_copy search_term prompt rest acc w Ht)
        as [e He].
      unfold loop in Hrun. rewrite He in Hrun. discriminate.
Qed.

End Analyze.

Lemma call_outcome_is_outcome env ad_copy search_term w k :
  call_outcome env ad_copy search_term w k
  = post_server env (posts w + k)
      (chat_request env ad_copy search_term (nth k prompts EmptyString)).
Proof. reflexivity. Qed.

(** ** Blank-line segments *)

Lemma segments_from_tidy t :
  forall cur rest,
    tidy t = true ->
    segments_from cur (t ++ blank_line ++ rest)
    = (cur ++ t) :: segments_from EmptyString rest.
Proof.
  induction t as [|c t IH]; intros cur rest Ht.
  - simpl. now rewrite append_empty_r.
  - destruct t as [|c' t].
    + simpl in Ht. simpl.
      destruct (Ascii.eqb c newline); [discriminate|]. reflexivity.
    + change (tidy (String c (String c' t)))
        with (negb (Ascii.eqb c newline && Ascii.eqb c' newline) && tidy (String c' t))
        in Ht.
      apply andb_true_iff in Ht. destruct Ht as [Hpair Ht].
      change (segments_from cur (String c (String c' t) ++ blank_line ++ rest))
        with (if Ascii.eqb c newline && Ascii.eqb c' newline
              then cur :: segments_from EmptyString (t ++ blank_line ++ rest)
              else segments_from (cur ++ String c EmptyString)
                     (String c' t ++ blank_line ++ rest)).
      destruct (Ascii.eqb c newline && Ascii.eqb c' newline); [discriminate|].
      rewrite (IH _ _ Ht). now rewrite append_assoc.
Qed.

Lemma segments_of_tidy_texts texts :
  forallb tidy texts = true ->
  segments (each_followed_by_blank_line texts) = (texts ++ [EmptyString])%list.
Proof.
  unfold segments. induction texts as [|t texts IH]; intros H.
  - reflexivity.
  - simpl in H. apply andb_true_iff in H. destruct H as [Ht H].
    change (each_followed_by_blank_line (t :: texts))
      with (t ++ blank_line ++ each_followed_by_blank_line texts).
    rewrite (segments_from_tidy t EmptyString _ Ht). simpl. now rewrite IH.
Qed.

Lemma nonempty_segments_of_tidy_texts texts :
  forallb tidy texts = true ->
  forallb nonempty texts = true ->
  nonempty_segments (each_followed_by_blank_line texts) = texts.
Proof.
  intros Ht Hn. unfold nonempty_segments.
  rewrite (segments_of_tidy_texts _ Ht). rewrite filter_app. simpl.
  rewrite app_nil_r. clear Ht.
  induction texts as [|t texts IH]; [reflexivity|].
  simpl in *. apply andb_true_iff in Hn. destruct Hn as [H1 H2].
  rewrite H1. now rewrite IH.
Qed.

(* ------------------------------------------------------------------ *)
(** ** The analyzer *)

(** C1 (the code departs from it). A prompt call that fails with a transport
    exception is not retried: the exception is caught inside the decorated
    function, which reports it and returns [None] after this single call,
    with no pause and no further attempt. *)
Theorem transport_failure_is_not_retried env ad_copy search_term w e :
  post_server env (posts w)
    (chat_request env ad_copy search_term
       "Analyze the headline effectiveness and keyword usage in this ad.") = Fails e ->
  analyze_ad_copy env ad_copy search_term w
  = (Ok None,
     log (StError ("Error analyzing ad copy: " ++ exn_str e))
       (posted (chat_request env ad_copy search_term
                  "Analyze the headline effectiveness and keyword usage in this ad.") w)).
Proof.
  intros H. rewrite analyze_ad_copy_is_body.
  unfold analyze_ad_copy_body, prompts. simpl.
  unfold bind at 1. unfold try_except at 1. unfold bind at 1.
  unfold prompt_call. unfold bind at 1. unfold requests_post. rewrite H.
  reflexivity.
Qed.

Lemma transport_failure_is_not_retried_witness :
  let env := healthy_except 0 (Fails (ConnectionError "connection refused")) five_texts in
  let run := analyze_ad_copy env "ad" "widgets" initial_world in
  fst run = Ok None /\ posts (snd run) = 1
  /\ existsb is_Sleep (trace (snd run)) = false.
Proof.
  intros env run. unfold run.
  rewrite (@transport_failure_is_not_retried env "ad" "widgets" initial_world
             (ConnectionError "connection refused")).
  - split; [|split]; reflexivity.
  - reflexivity.
Defined.

(** C4. One analysis issues exactly five chat-completion calls when every
    call is answered with a text, and exactly [j] calls (1 <= j <= 5) when
    the [j]-th call is the first to fail; after the failed call no further
    prompt is sent, and the analysis is absent. *)
Theorem analyze_call_count env ad_copy search_term w :
  let run := analyze_ad_copy env ad_copy search_term w in
  ((forall k, k < 5 ->
      answer_text (call_outcome env ad_copy search_term w k) <> None) ->
   posts (snd run) = posts w + 5 /\ exists a, fst run = Ok (Some a))
  /\
  (forall j, 1 <= j <= 5 ->
     (forall k, k < j - 1 ->
        answer_text (call_outcome env ad_copy search_term w k) <> None) ->
     answer_text (call_outcome env ad_copy search_term w (j - 1)) = None ->
     posts (snd run) = posts w + j /\ fst run = Ok None).
Proof.
  intros run. unfold run. rewrite analyze_ad_copy_is_body.
  unfold analyze_ad_copy_body. split.
  - intros Hall.
    pose (text := fun k =>
            match answer_text (call_outcome env ad_copy search_term w k) with
            | Some t => t
            | None => EmptyString
            end).
    destruct (loop_all_answered env ad_copy search_term prompts
                (map text (seq 0 5)) EmptyString w) as (w' & Hrun & Hposts).
    + reflexivity.
    + intros k Hk. specialize (Hall k Hk).
      rewrite <- call_outcome_is_outcome.
      change (List.length prompts) with 5 in Hk.
      rewrite (nth_indep _ EmptyString (text 5)) by (rewrite length_map, length_seq; exact Hk).
      rewrite (map_nth text (seq 0 5) 5 k), seq_nth by exact Hk.
      unfold text. simpl.
      destruct (answer_text (call_outcome env ad_copy search_term w k)); congruence.
    + rewrite Hrun. simpl. split; [exact Hposts|]. eexists; reflexivity.
  - intros j Hj Hbefore Hfail.
    destruct (loop_first_failure env ad_copy search_term prompts (j := j - 1)
                EmptyString w) as (w' & Hrun & Hposts).
    + change (List.length prompts) with 5. lia.
    + intros k Hk. rewrite <- call_outcome_is_outcome. now apply Hbefore.
    + rewrite <- call_outcome_is_outcome. exact Hfail.
    + rewrite Hrun. simpl. split; [lia|reflexivity].
Qed.

Lemma analyze_call_count_witness :
  (let run := analyze_ad_copy (healthy five_texts) "ad" "widgets" initial_world in
   posts (snd run) = 5 /\ exists a, fst run = Ok (Some a))
  /\
  (let run := analyze_ad_copy (healthy_except 2 (answer 500 None) five_texts)
                "ad" "widgets" initial_world in
   posts (snd run) = 3 /\ fst run = Ok None).
Proof.
  split.
  - apply (proj1 (analyze_call_count (healthy five_texts) "ad" "widgets" initial_world)).
    intros k Hk. do 5 (destruct k as [|k]; [discriminate|]). lia.
  - apply (proj2 (analyze_call_count (healthy_except 2 (answer 500 None) five_texts)
                    "ad" "widgets" initial_world) 3).
    + lia.
    + intros k Hk. do 2 (destruct k as [|k]; [discriminate|]). simpl in Hk. lia.
    + reflexivity.
Defined.

(** C3, as the specification words it, fails: a call answered with a status
    outside 2xx that [raise_for_status] accepts (here 300) and a body of the
    completion shape is a failure in the specification's sense, yet the
    analysis goes on and returns the accumulated text. *)
Lemma non_2xx_answer_is_not_always_fatal :
  let env := healthy_except 0 (answer 300 (Some (completion "headline"))) five_texts in
  spec_call_failure (call_outcome env "ad" "widgets" initial_world 0) = true
  /\ fst (analyze_ad_copy env "ad" "widgets" initial_world)
     = Ok (Some (each_followed_by_blank_line
                   ["headline"; "description"; "call to action"; "relevance"; "takeaways"])).
Proof. split; reflexivity. Qed.

(** C3 (amended). Whenever one of the five prompt calls fails -- the call
    raises, or is answered with a 4xx or 5xx status, or with a body that
    lacks the completion shape -- the analysis of the record is absent: the
    text accumulated from the earlier calls is not returned. *)
Theorem failed_call_discards_analysis env ad_copy search_term w j :
  j < 5 ->
  answer_text (call_outcome env ad_copy search_term w j) = None ->
  fst (analyze_ad_copy env ad_copy search_term w) = Ok None.
Proof.
  intros Hj Hfail. rewrite analyze_ad_copy_is_body. unfold analyze_ad_copy_body.
  destruct (analyze_prompts_returns env ad_copy search_term prompts EmptyString w)
    as (r & w' & Hrun).
  rewrite Hrun. simpl. destruct r as [a|]; [|reflexivity].
  exfalso.
  apply (loop_text_all_answered env ad_copy search_term prompts EmptyString w Hrun (k := j)).
  - exact Hj.
  - rewrite <- call_outcome_is_outcome. exact Hfail.
Qed.

Lemma failed_call_discards_analysis_witness :
  fst (analyze_ad_copy (healthy_except 2 (answer 500 None) five_texts)
         "ad" "widgets" initial_world) = Ok None
  /\ fst (analyze_ad_copy (healthy_except 4 (answer 200 (Some (JObj []))) five_texts)
            "ad" "widgets" initial_world) = Ok None
  /\ fst (analyze_ad_copy (healthy_except 1 (Fails (Timeout "timed out")) five_texts)
            "ad" "widgets" initial_world) = Ok None.
Proof.
  split; [|split].
  - apply (@failed_call_discards_analysis _ "ad" "widgets" initial_world 2); [lia|reflexivity].
  - apply (@failed_call_discards_analysis _ "ad" "widgets" initial_world 4); [lia|reflexivity].
  - apply (@failed_call_discards_analysis _ "ad" "widgets" initial_world 1); [lia|reflexivity].
Defined.

(** C6, as the specification words it, fails: a response text may itself
    hold a blank line, and then the analysis has more than five segments. *)
Lemma analysis_may_have_more_than_five_segments :
  let texts := fun n => match n with
                        | 0 => "Strong headline." ++ blank_line ++ "Keywords fit."
                        | _ => five_texts n
                        end in
  let env := healthy texts in
  (forall k, k < 5 ->
     exists t, answer_text (call_outcome env "ad" "widgets" initial_world k) = Some t
               /\ nonempty t = true)
  /\ exists a, fst (analyze_ad_copy env "ad" "widgets" initial_world) = Ok (Some a)
               /\ List.length (nonempty_segments a) = 6.
Proof.
  split.
  - intros k Hk. do 5 (destruct k as [|k]; [eexists; split; reflexivity|]). lia.
  - eexists. split; reflexivity.
Qed.

(** C6 (amended). When all five prompt calls are answered with texts, the
    analysis is the five texts in prompt order, each followed by a blank
    line (the last one too); when moreover every text is non-empty, holds no
    blank line and does not end in a newline, the non-empty segments between
    the blank lines of the analysis are exactly the five texts, in prompt
    order. *)
Theorem analysis_is_texts_with_blank_lines env ad_copy search_term w texts :
  List.length texts = 5 ->
  (forall k, k < 5 ->
     answer_text (call_outcome env ad_copy search_term w k)
     = Some (nth k texts EmptyString)) ->
  fst (analyze_ad_copy env ad_copy search_term w)
  = Ok (Some (each_followed_by_blank_line texts))
  /\ (forallb nonempty texts = true -> forallb tidy texts = true ->
      nonempty_segments (each_followed_by_blank_line texts) = texts).
Proof.
  intros Hlen Hall. split.
  - rewrite analyze_ad_copy_is_body. unfold analyze_ad_copy_body.
    destruct (loop_all_answered env ad_copy search_term prompts texts EmptyString w)
      as (w' & Hrun & _).
    + exact Hlen.
    + intros k Hk. rewrite <- call_outcome_is_outcome. now apply Hall.
    + rewrite Hrun. reflexivity.
  - intros Hn Ht. now apply nonempty_segments_of_tidy_texts.
Qed.

Lemma analysis_is_texts_with_blank_lines_witness :
  let texts := ["headline"; "description"; "call to action"; "relevance"; "takeaways"] in
  fst (analyze_ad_copy (healthy five_texts) "ad" "widgets" initial_world)
  = Ok (Some (each_followed_by_blank_line texts))
  /\ nonempty_segments (each_followed_by_blank_line texts) = texts.
Proof.
  intros texts.
  destruct (@analysis_is_texts_with_blank_lines (healthy five_texts) "ad" "widgets"
              initial_world texts) as [Hrun Hseg].
  - reflexivity.
  - intros k Hk. do 5 (destruct k as [|k]; [reflexivity|]). lia.
  - split; [exact Hrun|]. apply Hseg; reflexivity.
Defined.

(* ------------------------------------------------------------------ *)
(** ** The batch *)

(** The analyzer returns, whatever the endpoint does. *)
Lemma analyze_ad_copy_returns env ad_copy search_term w :
  exists r w', analyze_ad_copy env ad_copy search_term w = (Ok r, w').
Proof.
  rewrite analyze_ad_copy_is_body. apply analyze_prompts_returns.
Qed.

Lemma process_rows_run env search_term rows :
  forall index results w,
    forallb has_ad_columns rows = true ->
    process_rows env search_term rows index results w
    = (Ok (results ++ kept_rows rows (analyzer_answers env search_term rows index w))%list,
       after_batch env search_term rows index w).
Proof.
  induction rows as [|row rest IH]; intros index results w Hrows.
  - simpl. now rewrite app_nil_r.
  - simpl in Hrows. apply andb_true_iff in Hrows. destruct Hrows as [Hrow Hrest].
    unfold has_ad_columns in Hrow.
    destruct (row_lookup "title" row) as [t|] eqn:Ht; [|discriminate].
    destruct (row_lookup "snippet" row) as [s|] eqn:Hs; [|discriminate].
    destruct (row_lookup "displayed_link" row) as [d|] eqn:Hd; [|discriminate].
    cbn [process_rows analyzer_answers after_batch kept_rows].
    unfold ad_copy_of_row, result_of. rewrite Ht, Hs, Hd.
    unfold row_get. rewrite Ht, Hs, Hd.
    unfold bind at 1. unfold ret at 1.
    unfold bind at 1. unfold ret at 1.
    unfold bind at 1. unfold ret at 1.
    destruct (analyze_ad_copy_returns env (ad_copy_of t s d) search_term w)
      as (r & w1 & Hrun).
    unfold bind at 1. rewrite Hrun. cbn [fst snd].
    destruct r as [a|].
    + unfold bind at 1. unfold bind at 1. unfold st_success, emit, ret.
      unfold bind at 1. unfold time_sleep, emit.
      rewrite (IH (S index) _ _ Hrest). unfold after_record.
      now rewrite <- app_assoc.
    + unfold bind at 1. unfold bind at 1. unfold st_error, emit, ret.
      unfold bind at 1. unfold time_sleep, emit.
      rewrite (IH (S index) _ _ Hrest). reflexivity.
Qed.

Lemma analyzer_answers_length env search_term rows :
  forall index w,
    List.length (analyzer_answers env search_term rows index w) = List.length rows.
Proof.
  induction rows as [|row rest IH]; intros index w; simpl; [reflexivity|].
  now rewrite IH.
Qed.

Lemma kept_rows_count rows :
  forall answers,
    List.length answers = List.length rows ->
    List.length (kept_rows rows answers) = count_present answers.
Proof.
  unfold count_present.
  induction rows as [|row rest IH]; intros [|[a|] answers] Hlen;
    try discriminate; simpl; try reflexivity.
  - f_equal. apply IH. simpl in Hlen. lia.
  - apply IH. simpl in Hlen. lia.
Qed.

Lemma count_present_bound answers : count_present answers <= List.length answers.
Proof. unfold count_present. apply filter_length_le. Qed.

(** The rows kept around a record: its neighbours' rows do not depend on it. *)
Lemma kept_rows_app before :
  forall answers_before row answer after answers_after,
    List.length answers_before = List.length before ->
    kept_rows (before ++ row :: after) (answers_before ++ answer :: answers_after)
    = (kept_rows before answers_before
       ++ match answer with
          | Some a => [result_of row a]
          | None => []
          end
       ++ kept_rows after answers_after)%list.
Proof.
  induction before as [|r before IH]; intros [|[a|] answers_before] row answer after
    answers_after Hlen; try discriminate.
  - simpl. destruct answer; reflexivity.
  - simpl. f_equal. apply IH. simpl in Hlen. lia.
  - simpl. apply IH. simpl in Hlen. lia.
Qed.

(** What the result of a record holds: the four labels in their order, the
    record's own three cells, and the analysis as a text. *)
Lemma result_of_cells row a :
  has_ad_columns row = true ->
  map fst (result_of row a) = ["title"; "snippet"; "displayed_link"; "analysis"]
  /\ row_lookup "title" (result_of row a) = row_lookup "title" row
  /\ row_lookup "snippet" (result_of row a) = row_lookup "snippet" row
  /\ row_lookup "displayed_link" (result_of row a) = row_lookup "displayed_link" row
  /\ row_lookup "analysis" (result_of row a) = Some (Text a).
Proof.
  unfold has_ad_columns, result_of. intros H.
  destruct (row_lookup "title" row) as [t|]; [|discriminate].
  destruct (row_lookup "snippet" row) as [s|]; [|discriminate].
  destruct (row_lookup "displayed_link" row) as [d|]; [|discriminate].
  repeat split.
Qed.

(** C2. For every batch of K records (rows with the three columns) and
    every pattern of analyzer answers, [process_dataframe] returns one
    analysis result per record whose analysis is present, in input order: at
    most K rows, as many as there are successes; the result of a record
    holds, under the labels title, snippet, displayed_link and analysis, the
    record's own three cells and the text the analyzer returned for it; a
    record whose analysis is absent contributes no row, and the rows of the
    records before and after it are what they are without it. *)
Theorem process_dataframe_keeps_successes env df search_term w :
  forallb has_ad_columns df = true ->
  let answers := analyzer_answers env search_term df 0 w in
  let results := kept_rows df answers in
  fst (process_dataframe env df search_term w) = Ok results
  /\ List.length answers = List.length df
  /\ List.length results = count_present answers
  /\ List.length results <= List.length df
  /\ (forall before row after answers_before answer answers_after,
        df = (before ++ row :: after)%list ->
        answers = (answers_before ++ answer :: answers_after)%list ->
        List.length answers_before = List.length before ->
        results = (kept_rows before answers_before
                   ++ match answer with
                      | Some a => [result_of row a]
                      | None => []
                      end
                   ++ kept_rows after answers_after)%list)
  /\ (forall row a,
        In row df ->
        map fst (result_of row a) = ["title"; "snippet"; "displayed_link"; "analysis"]
        /\ row_lookup "title" (result_of row a) = row_lookup "title" row
        /\ row_lookup "snippet" (result_of row a) = row_lookup "snippet" row
        /\ row_lookup "displayed_link" (result_of row a) = row_lookup "displayed_link" row
        /\ row_lookup "analysis" (result_of row a) = Some (Text a)).
Proof.
  intros Hdf answers results.
  assert (Hlen : List.length answers = List.length df)
    by apply analyzer_answers_length.
  split; [|split; [|split; [|split; [|split]]]].
  - unfold process_dataframe. now rewrite process_rows_run.
  - exact Hlen.
  - now apply kept_rows_count.
  - unfold results. rewrite (kept_rows_count _ _ Hlen).
    rewrite <- Hlen. apply count_present_bound.
  - intros before row after answers_before answer answers_after Hrows Hanswers Hbefore.
    unfold results. rewrite Hrows, Hanswers. now apply kept_rows_app.
  - intros row a Hrow. apply result_of_cells.
    rewrite forallb_forall in Hdf. now apply Hdf.
Qed.

Lemma process_dataframe_keeps_successes_witness :
  let env := healthy_except 7 (answer 500 None) five_texts in
  let run := process_dataframe env three_ads "widgets" initial_world in
  analyzer_answers env "widgets" three_ads 0 initial_world
  = [ Some (each_followed_by_blank_line
              ["headline"; "description"; "call to action"; "relevance"; "takeaways"]);
      None;
      Some (each_followed_by_blank_line
              ["takeaways"; "takeaways"; "takeaways"; "takeaways"; "takeaways"]) ]
  /\ fst run
     = Ok [ [ ("title", Text "Buy Widgets");
              ("snippet", Text "Best widgets online");
              ("displayed_link", Text "widgets.com");
              ("analysis",
               Text (each_followed_by_blank_line
                       ["headline"; "description"; "call to action"; "relevance";
                        "takeaways"])) ];
            [ ("title", Text "Gizmo World");
              ("snippet", Text "All the gizmos");
              ("displayed_link", Text "gizmo.example");
              ("analysis",
               Text (each_followed_by_blank_line
                       ["takeaways"; "takeaways"; "takeaways"; "takeaways";
                        "takeaways"])) ] ].
Proof.
  intros env run. split; [reflexivity|].
  destruct (@process_dataframe_keeps_successes env three_ads "widgets" initial_world)
    as (Hrun & _); [reflexivity|].
  exact Hrun.
Defined.

(* ------------------------------------------------------------------ *)
(** ** The rate-limit probe *)

Lemma rate_limit_extracted j p w :
  rate_limit_of j = Some p ->
  (data <- subscript_key j "data" ;;
   rate_limit <- subscript_key data "rate_limit" ;;
   requests <- subscript_key rate_limit "requests" ;;
   rate_limit' <- subscript_key data "rate_limit" ;;
   interval <- subscript_key rate_limit' "interval" ;;
   ret (requests, interval)) w = (Ok p, w).
Proof.
  unfold rate_limit_of. intros H.
  destruct j as [| | | | | |top]; try discriminate.
  destruct (dict_lookup "data" top) as [[| | | | | |data]|] eqn:Hd; try discriminate.
  destruct (dict_lookup "rate_limit" data) as [[| | | | | |limit]|] eqn:Hl; try discriminate.
  destruct (dict_lookup "requests" limit) as [requests|] eqn:Hr; try discriminate.
  destruct (dict_lookup "interval" limit) as [interval|] eqn:Hi; try discriminate.
  injection H as <-.
  unfold bind. rewrite dict_subscript, Hd. rewrite dict_subscript, Hl.
  rewrite dict_subscript, Hr. rewrite dict_subscript, Hl.
  rewrite dict_subscript, Hi. reflexivity.
Qed.

Lemma rate_limit_missing j w :
  rate_limit_of j = None ->
  exists e,
    (data <- subscript_key j "data" ;;
     rate_limit <- subscript_key data "rate_limit" ;;
     requests <- subscript_key rate_limit "requests" ;;
     rate_limit' <- subscript_key data "rate_limit" ;;
     interval <- subscript_key rate_limit' "interval" ;;
     ret (requests, interval)) w = (Raise e, w).
Proof.
  unfold rate_limit_of. intros H.
  destruct j as [| | | | | |top]; try (eexists; reflexivity).
  unfold bind. rewrite dict_subscript.
  destruct (dict_lookup "data" top) as [data|]; [|eexists; reflexivity].
  destruct data as [| | | | | |data]; try (eexists; reflexivity).
  rewrite dict_subscript.
  destruct (dict_lookup "rate_limit" data) as [limit|] eqn:Hl; [|eexists; reflexivity].
  destruct limit as [| | | | | |limit]; try (eexists; reflexivity).
  rewrite dict_subscript.
  destruct (dict_lookup "requests" limit) as [requests|]; [|eexists; reflexivity].
  rewrite dict_subscript, Hl. rewrite dict_subscript.
  destruct (dict_lookup "interval" limit) as [interval|]; [|eexists; reflexivity].
  discriminate.
Qed.

(** An HTTP 200 whose body has the shape: the pair is returned, silently. *)
Lemma probe_extracts env w p :
  probe_pair (get_server env (gets w)) = Some p ->
  check_rate_limits env w = (Ok p, got status_url (status_headers env) w).
Proof.
  unfold probe_pair, check_rate_limits. intros H.
  apply try_except_ok. unfold bind at 1. unfold requests_get.
  destruct (get_server env (gets w)) as [e|r]; [discriminate|].
  destruct (status_code r =? 200)%Z; [|discriminate].
  unfold bind at 1. unfold response_json.
  destruct (body r) as [j|]; [|discriminate].
  unfold ret at 1. now apply rate_limit_extracted.
Qed.

(** Every other behaviour of the endpoint: an error is shown and the pair
    is absent. *)
Lemma probe_absent env w :
  probe_pair (get_server env (gets w)) = None ->
  exists msg,
    check_rate_limits env w
    = (Ok (JNull, JNull), log (StError msg) (got status_url (status_headers env) w)).
Proof.
  unfold probe_pair, check_rate_limits. intros H.
  unfold try_except. unfold bind at 1. unfold requests_get.
  destruct (get_server env (gets w)) as [e|r]; [eexists; reflexivity|].
  destruct (status_code r =? 200)%Z; [|eexists; reflexivity].
  unfold bind at 1. unfold response_json.
  destruct (body r) as [j|]; [|eexists; reflexivity].
  unfold ret at 1.
  destruct (rate_limit_missing j (got status_url (status_headers env) w) H) as [e He].
  rewrite He. eexists; reflexivity.
Qed.

Lemma probe_run env w :
  exists w',
    check_rate_limits env w = (Ok (probe_result (get_server env (gets w))), w')
    /\ posts w' = posts w /\ session_results w' = session_results w.
Proof.
  unfold probe_result.
  destruct (probe_pair (get_server env (gets w))) as [p|] eqn:H.
  - rewrite (probe_extracts env w H). eexists. repeat split.
  - destruct (probe_absent env w H) as [msg Hrun]. rewrite Hrun.
    eexists. repeat split.
Qed.

(* ------------------------------------------------------------------ *)
(** ** The run *)

(** Reading the upload leaves the world as it is. *)
Lemma json_to_dataframe_pure env j w :
  snd (json_to_dataframe env j w) = w.
Proof.
  unfold json_to_dataframe, dict_get.
  destruct j as [| | | | | |fields]; try reflexivity.
  unfold bind. destruct (dict_lookup "organic_results" fields);
    unfold ret; destruct (json_normalize env _); reflexivity.
Qed.

Lemma load_pure env f w :
  snd ((json_data <- json_load f ;; json_to_dataframe env json_data) w) = w.
Proof.
  destruct f as [|j]; [reflexivity|].
  unfold bind, json_load, ret. cbn [fst snd].
  generalize (json_to_dataframe_pure env j w).
  destruct (json_to_dataframe env j w) as [[df|e] w']; simpl; congruence.
Qed.

(** An upload that cannot be read into a table ends the run with a message,
    and nothing else happens. *)
Lemma main_upload_aborts env f search_term clicked w e :
  fst ((json_data <- json_load f ;; json_to_dataframe env json_data) w) = Raise e ->
  main_upload env f search_term clicked w
  = (Ok tt, log (StError ("An error occurred while processing the file: " ++ exn_str e)) w).
Proof.
  intros H. destruct f as [|j].
  - unfold bind, json_load, raise in H. cbn [fst] in H. injection H as <-.
    reflexivity.
  - unfold bind at 1 in H. unfold json_load, ret in H.
    pose proof (json_to_dataframe_pure env j w) as Hw.
    destruct (json_to_dataframe env j w) as [[df|e'] w'] eqn:Hj;
      cbn [fst snd] in H, Hw; [discriminate|].
    injection H as ->. subst w'.
    unfold main_upload, try_except. unfold bind at 1. unfold json_load, ret.
    unfold bind at 1. rewrite Hj. reflexivity.
Qed.

(** A readable upload: the table is shown, then the button decides. *)
Lemma main_upload_loaded env j search_term clicked w df :
  json_to_dataframe env j w = (Ok df, w) ->
  main_upload env (JsonText j) search_term clicked w
  = try_except
      (if clicked then
         limits <- check_rate_limits env ;;
         if is_None (fst limits) then ret tt
         else
           results_df <- process_dataframe env df search_term ;;
           set_session_results (Some results_df) ;;
           st_success ("Analysis complete! Successfully analyzed " ++
                       str_of_nat (List.length results_df) ++ " ads.") ;;
           show_results
       else show_results)
      (fun e =>
         st_error ("An error occurred while processing the file: " ++ exn_str e))
      (log (StWriteFrame df) (log (StWrite "Converted JSON data:") w)).
Proof.
  intros H. unfold main_upload, try_except.
  unfold json_load. unfold bind at 1. unfold ret at 1.
  unfold bind at 1. rewrite H.
  unfold bind at 1. unfold emit at 1. unfold bind at 1. unfold emit at 1.
  reflexivity.
Qed.

(** When the probe's first component is absent, the run ends before the
    batch: no prompt call is issued and the session's results stay as they
    were. *)
Lemma absent_probe_gates env f search_term w :
  is_None (fst (probe_result (get_server env (gets w)))) = true ->
  let w' := snd (main_upload env f search_term true w) in
  posts w' = posts w /\ session_results w' = session_results w.
Proof.
  intros Hnone.
  destruct (fst ((json_data <- json_load f ;; json_to_dataframe env json_data) w))
    as [df|e] eqn:Hload.
  - destruct f as [|j]; [discriminate|].
    assert (Hdf : json_to_dataframe env j w = (Ok df, w)).
    { generalize (json_to_dataframe_pure env j w). revert Hload.
      unfold bind, json_load, ret. cbn [fst snd].
      destruct (json_to_dataframe env j w) as [[df'|e'] w'']; simpl; congruence. }
    rewrite (@main_upload_loaded env j search_term true w df Hdf).
    set (w2 := log (StWriteFrame df) (log (StWrite "Converted JSON data:") w)).
    destruct (probe_run env w2) as (w3 & Hprobe & Hposts & Hsession).
    change (gets w2) with (gets w) in Hprobe.
    cbv zeta. erewrite try_except_ok.
    2:{ erewrite bind_ok by exact Hprobe. cbv beta. rewrite Hnone. reflexivity. }
    split; [exact Hposts|exact Hsession].
  - rewrite (@main_upload_aborts env f search_term true w e Hload). split; reflexivity.
Qed.

Lemma absent_probe_ends_run env uploaded_file search_term w :
  is_None (fst (probe_result (get_server env (gets w)))) = true ->
  let w' := snd (main env uploaded_file search_term true w) in
  posts w' = posts w /\ session_results w' = session_results w.
Proof.
  destruct uploaded_file as [f|]; destruct search_term as [|c search_term];
    intros Hnone; try (split; reflexivity).
  now apply absent_probe_gates.
Qed.

(** C5, as the specification words it, fails: the endpoint may answer HTTP
    200 with a body that lacks the rate-limit shape, and then the probe
    returns the absent pair. *)
Lemma http_200_may_give_absent_pair :
  let env := probe_ends (answer 200 (Some (JObj [("data", JObj [])]))) five_texts in
  (exists r, get_server env (gets initial_world) = Answers r /\ status_code r = 200%Z)
  /\ probe_pair (get_server env (gets initial_world)) = None
  /\ fst (check_rate_limits env initial_world) = Ok (JNull, JNull).
Proof. split; [eexists; split; reflexivity|split; reflexivity]. Qed.

(** C5 (amended). The probe returns the pair (requests, interval) of the
    response body when the endpoint answers HTTP 200 with a body of the
    shape [{data: {rate_limit: {requests, interval}}}]; in every other case
    (a transport failure, a non-200 status, or an HTTP 200 whose body lacks
    the shape) it shows an error and returns (absent, absent).  Whenever the
    first component of the probe's pair is absent, the run ends before the
    batch: no prompt call is issued and no result row is stored. *)
Theorem probe_returns_pair_or_absent env w :
  (forall p, probe_pair (get_server env (gets w)) = Some p ->
             check_rate_limits env w = (Ok p, got status_url (status_headers env) w))
  /\ (probe_pair (get_server env (gets w)) = None ->
      exists msg, check_rate_limits env w
                  = (Ok (JNull, JNull),
                     log (StError msg) (got status_url (status_headers env) w)))
  /\ (forall uploaded_file search_term,
        is_None (fst (probe_result (get_server env (gets w)))) = true ->
        let w' := snd (main env uploaded_file search_term true w) in
        posts w' = posts w /\ session_results w' = session_results w).
Proof.
  split; [|split].
  - intros p H. now apply probe_extracts.
  - apply probe_absent.
  - intros uploaded_file search_term. apply absent_probe_ends_run.
Qed.

Lemma probe_returns_pair_or_absent_witness :
  check_rate_limits (healthy five_texts) initial_world
  = (Ok (JInt 200, JStr "10s"),
     got status_url [("Authorization", "Bearer sk-test")] initial_world)
  /\ (exists msg, check_rate_limits (probe_ends (answer 503 None) five_texts) initial_world
                  = (Ok (JNull, JNull),
                     log (StError msg)
                       (got status_url [("Authorization", "Bearer sk-test")]
                          initial_world)))
  /\ (let w' := snd (main (probe_ends (answer 503 None) five_texts)
                       (Some (JsonText widgets_document)) "widgets" true initial_world) in
      posts w' = 0 /\ session_results w' = None).
Proof.
  split; [|split].
  - apply (proj1 (probe_returns_pair_or_absent (healthy five_texts) initial_world)).
    reflexivity.
  - apply (proj1 (proj2 (probe_returns_pair_or_absent
                           (probe_ends (answer 503 None) five_texts) initial_world))).
    reflexivity.
  - apply (proj2 (proj2 (probe_returns_pair_or_absent
                           (probe_ends (answer 503 None) five_texts) initial_world))).
    reflexivity.
Defined.

(** C10. [check_rate_limits] never raises.  For an HTTP 200 whose body is not
    JSON or lacks the [data.rate_limit.requests] / [data.rate_limit.interval]
    shape, the exception handler shows an error and returns (absent,
    absent), as it does for a transport failure; in both cases the run ends
    before the batch. *)
Theorem check_rate_limits_never_raises env w :
  (exists p w', check_rate_limits env w = (Ok p, w'))
  /\ (forall r,
        get_server env (gets w) = Answers r ->
        status_code r = 200%Z ->
        match body r with Some j => rate_limit_of j | None => None end = None ->
        (exists e, check_rate_limits env w
                   = (Ok (JNull, JNull),
                      log (StError ("Error checking rate limits: " ++ exn_str e))
                        (got status_url (status_headers env) w)))
        /\ forall uploaded_file search_term,
             let w' := snd (main env uploaded_file search_term true w) in
             posts w' = posts w /\ session_results w' = session_results w)
  /\ (forall e,
        get_server env (gets w) = Fails e ->
        check_rate_limits env w
        = (Ok (JNull, JNull),
           log (StError ("Error checking rate limits: " ++ exn_str e))
             (got status_url (status_headers env) w))
        /\ forall uploaded_file search_term,
             let w' := snd (main env uploaded_file search_term true w) in
             posts w' = posts w /\ session_results w' = session_results w).
Proof.
  split; [|split].
  - destruct (probe_run env w) as (w' & H & _). eauto.
  - intros r Hget Hstatus Hshape.
    assert (Hpair : probe_pair (get_server env (gets w)) = None).
    { unfold probe_pair. rewrite Hget, Hstatus. exact Hshape. }
    split.
    + unfold check_rate_limits, try_except. unfold bind at 1. unfold requests_get.
      rewrite Hget, Hstatus. cbn [Z.eqb Pos.eqb].
      unfold bind at 1. unfold response_json.
      destruct (body r) as [j|]; [|exists JSONDecodeError; reflexivity].
      unfold ret at 1.
      destruct (rate_limit_missing j (got status_url (status_headers env) w) Hshape) as [e He].
      rewrite He. exists e. reflexivity.
    + intros uploaded_file search_term. apply absent_probe_ends_run.
      unfold probe_result. now rewrite Hpair.
  - intros e Hget. split.
    + unfold check_rate_limits, try_except. unfold bind at 1. unfold requests_get.
      rewrite Hget. reflexivity.
    + intros uploaded_file search_term. apply absent_probe_ends_run.
      unfold probe_result, probe_pair. now rewrite Hget.
Qed.

Lemma check_rate_limits_never_raises_witness :
  let not_json := probe_ends (answer 200 None) five_texts in
  let no_interval :=
    probe_ends (answer 200 (Some (JObj [("data", JObj [("rate_limit",
                                    JObj [("requests", JInt 200)])])]))) five_texts in
  let refused := probe_ends (Fails (ConnectionError "connection refused")) five_texts in
  fst (check_rate_limits not_json initial_world) = Ok (JNull, JNull)
  /\ fst (check_rate_limits no_interval initial_world) = Ok (JNull, JNull)
  /\ fst (check_rate_limits refused initial_world) = Ok (JNull, JNull)
  /\ posts (snd (main no_interval (Some (JsonText widgets_document)) "widgets" true
                   initial_world)) = 0.
Proof.
  intros not_json no_interval refused.
  split; [|split; [|split]].
  - destruct (proj1 (proj2 (check_rate_limits_never_raises not_json initial_world))
                {| status_code := 200; body := None |}) as [[e He] _];
      [reflexivity|reflexivity|reflexivity|].
    now rewrite He.
  - destruct (proj1 (proj2 (check_rate_limits_never_raises no_interval initial_world))
                {| status_code := 200;
                   body := Some (JObj [("data", JObj [("rate_limit",
                                         JObj [("requests", JInt 200)])])]) |})
      as [[e He] _]; [reflexivity|reflexivity|reflexivity|].
    now rewrite He.
  - destruct (proj2 (proj2 (check_rate_limits_never_raises refused initial_world))
                (ConnectionError "connection refused")) as [He _]; [reflexivity|].
    now rewrite He.
  - destruct (proj1 (proj2 (check_rate_limits_never_raises no_interval initial_world))
                {| status_code := 200;
                   body := Some (JObj [("data", JObj [("rate_limit",
                                         JObj [("requests", JInt 200)])])]) |})
      as [_ Hgate]; [reflexivity|reflexivity|reflexivity|].
    apply (Hgate (Some (JsonText widgets_document)) "widgets").
Defined.

(** ** Uploads *)

Lemma process_dataframe_returns env df search_term w :
  forallb has_ad_columns df = true ->
  exists results w', process_dataframe env df search_term w = (Ok results, w').
Proof.
  intros H. unfold process_dataframe. rewrite (process_rows_run _ _ _ _ _ _ H).
  eexists; eexists; reflexivity.
Qed.

(** C9. For an uploaded JSON object in which [organic_results] is absent, or
    is the empty list, [json_to_dataframe] yields the empty table (pandas
    normalises the empty list to the empty frame) and the run completes
    normally: the batch issues no prompt call and returns no row, the
    session holds an empty result table, a success message with a count of 0
    is shown and no error is. *)
Theorem empty_upload_is_an_empty_batch env fields c search_term w p :
  dict_lookup "organic_results" fields = None
  \/ dict_lookup "organic_results" fields = Some (JArr []) ->
  json_normalize env (JArr []) = inr [] ->
  probe_pair (get_server env (gets w)) = Some p ->
  is_None (fst p) = false ->
  json_to_dataframe env (JObj fields) w = (Ok [], w)
  /\ process_dataframe env [] (String c search_term) w = (Ok [], w)
  /\ main env (Some (JsonText (JObj fields))) (String c search_term) true w
     = (Ok tt,
        {| posts := posts w;
           gets := S (gets w);
           trace := trace w ++
                    [ StWrite "Converted JSON data:"; StWriteFrame [];
                      Get status_url (status_headers env);
                      StSuccess "Analysis complete! Successfully analyzed 0 ads.";
                      StWrite "Analysis Results:";
                      StDownload nl ];
           session_results := Some [] |}).
Proof.
  intros Hkey Hnormalize Hprobe Hpresent.
  assert (Hdf : json_to_dataframe env (JObj fields) w = (Ok [], w)).
  { unfold json_to_dataframe, dict_get, bind.
    destruct Hkey as [-> | ->]; unfold ret; now rewrite Hnormalize. }
  split; [exact Hdf|]. split; [reflexivity|].
  unfold main.
  rewrite (@main_upload_loaded env (JObj fields) (String c search_term) true w [] Hdf).
  set (w2 := log (StWriteFrame []) (log (StWrite "Converted JSON data:") w)).
  assert (Hrun : check_rate_limits env w2 = (Ok p, got status_url (status_headers env) w2))
    by (apply probe_extracts; exact Hprobe).
  erewrite try_except_ok.
  2:{ erewrite bind_ok by exact Hrun. cbv beta. rewrite Hpresent. reflexivity. }
  unfold w2, got, log. cbn [posts gets trace session_results].
  rewrite <- !app_assoc. reflexivity.
Qed.

Lemma empty_upload_is_an_empty_batch_witness :
  let w' := snd (main (healthy five_texts) (Some (JsonText (JObj [("search_metadata", JNull)])))
                   "widgets" true initial_world) in
  posts w' = 0 /\ session_results w' = Some [] /\ existsb is_StError (trace w') = false.
Proof.
  intros w'. unfold w'.
  rewrite (proj2 (proj2 (@empty_upload_is_an_empty_batch (healthy five_texts)
                           [("search_metadata", JNull)] "w" "idgets" initial_world
                           (JInt 200, JStr "10s")
                           (or_introl eq_refl) eq_refl eq_refl eq_refl))).
  split; [|split]; reflexivity.
Defined.

(** C7, as the specification words it, fails: a document without the list
    field [organic_results] lacks the expected structure, yet the run is not
    aborted; it completes and reports success. *)
Lemma upload_without_results_is_not_aborted :
  let f := JsonText (JObj []) in
  let w' := snd (main (healthy five_texts) (Some f) "widgets" true initial_world) in
  expected_structure f = false
  /\ existsb is_StError (trace w') = false
  /\ In (StSuccess "Analysis complete! Successfully analyzed 0 ads.") (trace w').
Proof.
  split; [reflexivity|]. split; [reflexivity|].
  simpl. tauto.
Qed.

(** C7 (amended). For every upload that [json.load] rejects or whose
    top-level value is not an object, and for every upload whose
    [organic_results] pandas refuses to normalise, the whole run aborts with
    a message shown to the user and no record is processed: no call is made
    and the session's results are untouched.  Once a batch over rows with
    the three columns has started, no failure of the analyzer terminates
    it: [process_dataframe] returns. *)
Theorem unreadable_upload_aborts_run env search_term w :
  (forall f clicked c,
     unreadable f = true ->
     exists e,
       main env (Some f) (String c search_term) clicked w
       = (Ok tt,
          log (StError ("An error occurred while processing the file: " ++ exn_str e)) w))
  /\ (forall j clicked c e,
        fst (json_to_dataframe env j w) = Raise e ->
        main env (Some (JsonText j)) (String c search_term) clicked w
        = (Ok tt,
           log (StError ("An error occurred while processing the file: " ++ exn_str e)) w))
  /\ (forall df,
        forallb has_ad_columns df = true ->
        exists results w', process_dataframe env df search_term w = (Ok results, w')).
Proof.
  split; [|split].
  - intros f clicked c Hf. unfold main.
    destruct f as [|j].
    + exists JSONDecodeError. now apply main_upload_aborts.
    + exists (AttributeError "object has no attribute 'get'").
      apply main_upload_aborts.
      destruct j; try reflexivity. discriminate.
  - intros j clicked c e Hj. unfold main. apply main_upload_aborts.
    unfold bind, json_load, ret. exact Hj.
  - intros df Hdf. now apply process_dataframe_returns.
Qed.

Lemma unreadable_upload_aborts_run_witness :
  (exists e,
     main (healthy five_texts) (Some (JsonText (JArr []))) "widgets" true initial_world
     = (Ok tt,
        log (StError ("An error occurred while processing the file: " ++ exn_str e))
          initial_world))
  /\ main (healthy five_texts) (Some (JsonText (JObj [("organic_results", JStr "none")])))
       "widgets" true initial_world
     = (Ok tt,
        log (StError ("An error occurred while processing the file: "
                      ++ exn_str NotImplementedError)) initial_world)
  /\ exists results w',
       process_dataframe (healthy five_texts) three_ads "idgets" initial_world
       = (Ok results, w').
Proof.
  split; [|split].
  - apply (proj1 (unreadable_upload_aborts_run (healthy five_texts) "idgets" initial_world)
             (JsonText (JArr [])) true "w"%char).
    reflexivity.
  - apply (proj1 (proj2 (unreadable_upload_aborts_run (healthy five_texts) "idgets"
                           initial_world))
             (JObj [("organic_results", JStr "none")]) true "w"%char NotImplementedError).
    reflexivity.
  - apply (proj2 (proj2 (unreadable_upload_aborts_run (healthy five_texts) "idgets"
                           initial_world))).
    reflexivity.
Defined.

(* ------------------------------------------------------------------ *)
(** ** The export and its reader *)

Lemma special_cases c :
  is_special c = false ->
  Ascii.eqb c comma = false /\ Ascii.eqb c dquote = false /\ Ascii.eqb c newline = false.
Proof.
  unfold is_special. intros H.
  apply orb_false_iff in H. destruct H as [H Hn].
  apply orb_false_iff in H. tauto.
Qed.

(** A field written without quotes is read character by character. *)
Lemma read_plain_field f :
  forall field earlier rest,
    needs_quoting f = false ->
    read_records InField field earlier (f ++ rest)
    = read_records InField (field ++ f) earlier rest.
Proof.
  induction f as [|c f IH]; intros field earlier rest H.
  - simpl. now rewrite append_empty_r.
  - simpl in H. apply orb_false_iff in H. destruct H as [Hc Hf].
    destruct (special_cases c Hc) as (H1 & H2 & H3).
    simpl. rewrite H1, H2, H3. simpl.
    rewrite (IH _ _ _ Hf). now rewrite append_assoc.
Qed.

(** The inside of a quoted field is read up to its closing quote, the
    doubled quotes as single ones. *)
Lemma read_quoted_field f :
  forall field earlier rest,
    read_records InQuoted field earlier (double_quotes f ++ String dquote rest)
    = read_records QuoteSeen (field ++ f) earlier rest.
Proof.
  induction f as [|c f IH]; intros field earlier rest.
  - simpl. now rewrite append_empty_r.
  - simpl. destruct (Ascii.eqb c dquote) eqn:Hc.
    + apply Ascii.eqb_eq in Hc. subst c. simpl.
      rewrite IH. now rewrite append_assoc.
    + simpl. rewrite Hc. rewrite IH. now rewrite append_assoc.
Qed.

Lemma plain_field_starts_plain f rest :
  needs_quoting f = false ->
  forall earlier,
    read_records InField EmptyString earlier (f ++ rest)
    = read_records InField f earlier rest.
Proof. intros H earlier. now rewrite read_plain_field. Qed.

(** A written field followed by a comma is read as that field. *)
Lemma read_field_then_comma f earlier rest :
  read_records InField EmptyString earlier (csv_field f ++ String comma rest)
  = read_records InField EmptyString (f :: earlier) rest.
Proof.
  unfold csv_field. destruct (needs_quoting f) eqn:Hq.
  - cbn [append]. rewrite append_assoc.
    change (read_records InField EmptyString earlier
              (String dquote (double_quotes f ++ String dquote EmptyString ++ String comma rest)))
      with (read_records InQuoted EmptyString earlier
              (double_quotes f ++ String dquote (String comma rest))).
    rewrite read_quoted_field. reflexivity.
  - rewrite (@plain_field_starts_plain f _ Hq). reflexivity.
Qed.

(** A written field followed by the line end closes its record. *)
Lemma read_field_then_newline f earlier rest :
  earlier <> [] ->
  read_records InField EmptyString earlier (csv_field f ++ String newline rest)
  = List.rev (f :: earlier) :: read_records InField EmptyString [] rest.
Proof.
  intros Hearlier. unfold csv_field. destruct (needs_quoting f) eqn:Hq.
  - cbn [append]. rewrite append_assoc.
    change (read_records InField EmptyString earlier
              (String dquote (double_quotes f ++ String dquote EmptyString ++ String newline rest)))
      with (read_records InQuoted EmptyString earlier
              (double_quotes f ++ String dquote (String newline rest))).
    rewrite read_quoted_field. reflexivity.
  - rewrite (@plain_field_starts_plain f _ Hq).
    cbn [read_records]. change (Ascii.eqb newline comma) with false.
    change (Ascii.eqb newline newline) with true. cbv iota.
    unfold close_record. destruct f; [|reflexivity].
    destruct earlier; [contradiction|reflexivity].
Qed.

(** A written record of at least two fields is read back as it was. *)
Lemma read_record fields :
  forall earlier rest,
    fields <> [] ->
    earlier <> [] \/ 2 <= List.length fields ->
    read_records InField EmptyString earlier (csv_join fields ++ String newline rest)
    = (List.rev earlier ++ fields)%list :: read_records InField EmptyString [] rest.
Proof.
  induction fields as [|f fields IH]; intros earlier rest Hne Hlen; [contradiction|].
  destruct fields as [|f' fields].
  - cbn [csv_join]. rewrite read_field_then_newline.
    + reflexivity.
    + destruct Hlen as [H|H]; [exact H|simpl in H; lia].
  - change (csv_join (f :: f' :: fields))
      with (csv_field f ++ String comma (csv_join (f' :: fields))).
    rewrite append_assoc. cbn [append].
    rewrite read_field_then_comma. rewrite IH.
    + cbn [List.rev]. now rewrite <- app_assoc.
    + discriminate.
    + left. discriminate.
Qed.

Lemma csv_line_of_many fields :
  2 <= List.length fields -> csv_line fields = csv_join fields ++ nl.
Proof.
  destruct fields as [|f [|f' fields]]; simpl; try lia.
  intros _. unfold csv_line. destruct f; reflexivity.
Qed.

(** Written records of at least two fields are read back in order. *)
Lemma read_lines records :
  Forall (fun r => 2 <= List.length r) records ->
  read_records InField EmptyString [] (csv_lines records) = records.
Proof.
  induction records as [|r records IH]; intros H; [reflexivity|].
  inversion H as [|? ? Hr Hrest]; subst.
  cbn [csv_lines]. rewrite (csv_line_of_many _ Hr). rewrite append_assoc.
  change (nl ++ csv_lines records) with (String newline (csv_lines records)).
  rewrite read_record.
  - now rewrite IH.
  - destruct r; [simpl in Hr; lia|discriminate].
  - now right.
Qed.

Lemma kept_rows_are_result_rows rows :
  forall answers,
    forallb has_ad_columns rows = true ->
    Forall is_result_row (kept_rows rows answers).
Proof.
  induction rows as [|row rows IH]; intros [|[a|] answers] H; simpl;
    try constructor; simpl in H; apply andb_true_iff in H; destruct H as [Hrow Hrows].
  - unfold has_ad_columns in Hrow. unfold result_of.
    destruct (row_lookup "title" row) as [t|]; [|discriminate].
    destruct (row_lookup "snippet" row) as [s|]; [|discriminate].
    destruct (row_lookup "displayed_link" row) as [d|]; [|discriminate].
    now exists t, s, d, a.
  - now apply IH.
  - now apply IH.
Qed.

Lemma result_rows_recombine rows :
  Forall is_result_row rows ->
  map (fun r => combine ["title"; "snippet"; "displayed_link"; "analysis"] (map Text r))
    (map (map (fun kv => csv_text (snd kv))) rows)
  = map as_text rows.
Proof.
  induction 1 as [|r rs (t & s & d & a & ->) _ IH]; [reflexivity|].
  cbn [map]. rewrite IH. reflexivity.
Qed.

Lemma result_rows_have_fields rows :
  Forall is_result_row rows ->
  Forall (fun r => 2 <= List.length r)
    (map (map (fun kv => csv_text (snd kv))) rows).
Proof.
  induction 1 as [|r rs (t & s & d & a & ->) _ IH]; constructor.
  - simpl. lia.
  - exact IH.
Qed.

(** A table of result rows is read back from its export with every cell as
    the text that the export wrote for it. *)
Lemma result_rows_round_trip results :
  Forall is_result_row results ->
  read_csv (to_csv results) = map as_text results.
Proof.
  intros H. destruct results as [|row results]; [reflexivity|].
  unfold read_csv, parse_csv, to_csv.
  assert (Hcols : columns (row :: results)
                  = ["title"; "snippet"; "displayed_link"; "analysis"]).
  { inversion H as [|? ? (t & s & d & a & ->) _]. reflexivity. }
  rewrite Hcols. rewrite read_lines.
  - now apply result_rows_recombine.
  - constructor; [simpl; lia|]. now apply result_rows_have_fields.
Qed.

Lemma as_text_of_text_row row :
  forallb (fun kv => is_text (snd kv)) row = true -> as_text row = row.
Proof.
  induction row as [|[k c] row IH]; intros H; [reflexivity|].
  simpl in H. apply andb_true_iff in H. destruct H as [Hc Hrow].
  unfold as_text in *. cbn [map fst snd]. rewrite (IH Hrow).
  destruct c; try discriminate. reflexivity.
Qed.

Lemma as_text_of_text df :
  all_text df = true -> map as_text df = df.
Proof.
  unfold all_text. induction df as [|row df IH]; intros H; [reflexivity|].
  simpl in H. apply andb_true_iff in H. destruct H as [Hrow Hdf].
  cbn [map]. now rewrite (as_text_of_text_row _ Hrow), (IH Hdf).
Qed.

(** C8, as the specification words it, fails: a record that lacks a field
    has the missing value in its cell, which the batch copies and the export
    writes as an empty field, the same text as for an empty string.  Two
    different result tables then have the same export, so no re-parsing
    gives both back; the reader modelled above returns the empty text. *)
Lemma missing_cell_is_lost_in_the_export :
  let env := healthy five_texts in
  let missing := [ [ ("title", Text "Buy Widgets"); ("snippet", NaN);
                     ("displayed_link", Text "widgets.com") ] ] in
  let empty := [ [ ("title", Text "Buy Widgets"); ("snippet", Text EmptyString);
                   ("displayed_link", Text "widgets.com") ] ] in
  exists r1 r2,
    fst (process_dataframe env missing "widgets" initial_world) = Ok r1
    /\ fst (process_dataframe env empty "widgets" initial_world) = Ok r2
    /\ r1 <> r2
    /\ to_csv r1 = to_csv r2
    /\ read_csv (to_csv r1) <> r1.
Proof.
  intros env missing empty.
  eexists. eexists.
  split; [reflexivity|]. split; [reflexivity|].
  split; [discriminate|]. split; [reflexivity|].
  vm_compute. discriminate.
Qed.

(** C8 (amended). Every result table that [process_dataframe] produces is
    read back from its comma-separated export row by row and in order, with
    every cell as the text that the export wrote for it (the empty text for
    a missing value or [None]); when every cell of the table is a text, the
    (title, snippet, displayed_link, analysis) tuples of the re-parsed
    export equal the original ones exactly. *)
Theorem export_round_trips env df search_term w results :
  forallb has_ad_columns df = true ->
  fst (process_dataframe env df search_term w) = Ok results ->
  read_csv (to_csv results) = map as_text results
  /\ (all_text results = true -> read_csv (to_csv results) = results).
Proof.
  intros Hdf Hrun. unfold process_dataframe in Hrun.
  rewrite (process_rows_run _ _ _ _ _ _ Hdf) in Hrun. cbn [fst] in Hrun.
  injection Hrun as <-.
  assert (H : read_csv (to_csv (kept_rows df (analyzer_answers env search_term df 0 w)))
              = map as_text (kept_rows df (analyzer_answers env search_term df 0 w))).
  { apply result_rows_round_trip. now apply kept_rows_are_result_rows. }
  split; [exact H|].
  intros Htext. rewrite H. now apply as_text_of_text.
Qed.

Lemma export_round_trips_witness :
  let env := healthy_except 7 (answer 500 None) quoting_texts in
  let results := match fst (process_dataframe env three_ads "widgets" initial_world) with
                 | Ok r => r
                 | Raise _ => []
                 end in
  List.length results = 2 /\ read_csv (to_csv results) = results.
Proof.
  intros env results. split; [reflexivity|].
  apply (proj2 (@export_round_trips env three_ads "widgets" initial_world results
                  eq_refl eq_refl)).
  reflexivity.
Defined.

(* ================================================================== *)
(** * Further properties of the script *)

(** ** Worlds and traces *)

Lemma advance_nothing w : advance 0 [] w = w.
Proof. destruct w. unfold advance. simpl. now rewrite app_nil_r. Qed.

Lemma advance_advance n m evs evs' w :
  advance m evs' (advance n evs w) = advance (n + m) (evs ++ evs') w.
Proof.
  unfold advance. simpl. f_equal; [lia|]. now rewrite app_assoc.
Qed.

Lemma log_is_advance ev w : log ev w = advance 0 [ev] w.
Proof. reflexivity. Qed.

Lemma posted_is_advance req w : posted req w = advance 1 [Post req] w.
Proof. reflexivity. Qed.

Lemma store_advance r n evs w :
  store r (advance n evs w) = advance n evs (store r w).
Proof. reflexivity. Qed.

(** ** The shape of one analysis *)

Section AnalysisShape.

Variable env : Env.
Variables ad_copy search_term : string.

Lemma analysis_shape todo :
  forall acc w,
  exists r n new,
    analyze_prompts env ad_copy search_term todo acc w = (Ok r, advance n new w)
    /\ posted_requests new
       = map (chat_request env ad_copy search_term) (firstn n todo)
    /\ successes_shown new = []
    /\ record_notices new = []
    /\ match r with
       | Some _ =>
           n = List.length todo /\ pauses new = repeat 1%Z n /\ errors_shown new = []
       | None =>
           1 <= n <= List.length todo /\ pauses new = repeat 1%Z (n - 1)
           /\ List.length (errors_shown new) = 1
       end.
Proof.
  induction todo as [|prompt rest IH]; intros acc w.
  - exists (Some acc), 0, []. rewrite advance_nothing. repeat split.
  - destruct (answer_text (post_server env (posts w)
                (chat_request env ad_copy search_term prompt))) as [t|] eqn:Ht.
    + rewrite (analyze_prompts_answered _ _ _ _ _ _ _ Ht).
      destruct (IH (acc ++ t ++ blank_line)
                  (log (Sleep 1)
                     (posted (chat_request env ad_copy search_term prompt) w)))
        as (r & n & new & Hrun & Hreq & Hsucc & Hnot & Hr).
      exists r, (S n), (Post (chat_request env ad_copy search_term prompt)
                          :: Sleep 1 :: new).
      split.
      { rewrite Hrun. f_equal.
        rewrite log_is_advance, posted_is_advance, !advance_advance. reflexivity. }
      split; [unfold posted_requests in *; simpl; f_equal; exact Hreq|].
      split; [exact Hsucc|]. split; [exact Hnot|].
      destruct r as [a|].
      * destruct Hr as (Hn & Hp & He). subst n.
        split; [reflexivity|]. split; [|exact He].
        unfold pauses in *. simpl. f_equal. exact Hp.
      * destruct Hr as (Hn & Hp & He).
        split; [simpl; lia|]. split; [|exact He].
        unfold pauses in *. simpl. rewrite Hp.
        destruct n as [|n]; [lia|]. simpl. now rewrite Nat.sub_0_r.
    + destruct (analyze_prompts_failed env ad_copy search_term prompt rest acc w Ht)
        as [e He].
      exists None, 1,
        [Post (chat_request env ad_copy search_term prompt);
         StError ("Error analyzing ad copy: " ++ exn_str e)].
      split.
      { rewrite He. f_equal.
        rewrite log_is_advance, posted_is_advance, advance_advance. reflexivity. }
      repeat split; simpl; lia.
Qed.

End AnalysisShape.

Lemma analyze_ad_copy_shape env ad_copy search_term w :
  exists r n new,
    analyze_ad_copy env ad_copy search_term w = (Ok r, advance n new w)
    /\ posted_requests new
       = map (chat_request env ad_copy search_term) (firstn n prompts)
    /\ successes_shown new = []
    /\ record_notices new = []
    /\ match r with
       | Some _ => n = 5 /\ pauses new = repeat 1%Z n /\ errors_shown new = []
       | None => 1 <= n <= 5 /\ pauses new = repeat 1%Z (n - 1)
                 /\ List.length (errors_shown new) = 1
       end.
Proof.
  rewrite analyze_ad_copy_is_body. unfold analyze_ad_copy_body.
  apply analysis_shape.
Qed.

(** X1. Whatever the endpoint does, an analysis returns (no exception
    leaves it), having issued all five chat-completion calls when a text is
    returned and between one and five otherwise; the requests are those of
    the first
    prompts, in prompt order, for the given ad copy and search term; the
    account-status endpoint is not called and the stored results are not
    touched. *)
Theorem analysis_calls_follow_the_prompts env ad_copy search_term w :
  exists r n new,
    analyze_ad_copy env ad_copy search_term w = (Ok r, advance n new w)
    /\ match r with
       | Some _ => n = 5
       | None => 1 <= n <= 5
       end
    /\ posted_requests new
       = map (chat_request env ad_copy search_term) (firstn n prompts).
Proof.
  destruct (analyze_ad_copy_shape env ad_copy search_term w)
    as (r & n & new & Hrun & Hreq & _ & _ & Hr).
  exists r, n, new. split; [exact Hrun|]. split; [|exact Hreq].
  destruct r as [a|]; tauto.
Qed.

(** X2. The only pauses of an analysis are the one-second pauses after the
    answered calls (one per call when a text is returned, one per call but
    the failed one otherwise): the back-off of the decorator never happens.
    An analysis shows exactly one error when it returns no text, and none
    when it returns one. *)
Theorem analysis_pauses_one_second_per_answer env ad_copy search_term w :
  exists r n new,
    analyze_ad_copy env ad_copy search_term w = (Ok r, advance n new w)
    /\ pauses new = repeat 1%Z (match r with Some _ => n | None => n - 1 end)
    /\ List.length (errors_shown new) = match r with Some _ => 0 | None => 1 end
    /\ successes_shown new = [].
Proof.
  destruct (analyze_ad_copy_shape env ad_copy search_term w)
    as (r & n & new & Hrun & _ & Hsucc & _ & Hr).
  exists r, n, new. split; [exact Hrun|].
  destruct r as [a|].
  - destruct Hr as (_ & Hp & He). rewrite He. repeat split; assumption.
  - destruct Hr as (_ & Hp & He). repeat split; assumption.
Qed.

(** ** The shape of a batch *)

Lemma after_record_is_advance index answer n new w :
  after_record index answer (advance n new w)
  = advance n
      (new ++ [ match answer with
                | Some _ => StSuccess ("Successfully analyzed ad " ++ str_of_nat (index + 1))
                | None => StError ("Failed to analyze ad " ++ str_of_nat (index + 1))
                end;
                Sleep 1 ])%list w.
Proof.
  unfold after_record. rewrite !log_is_advance, !advance_advance.
  f_equal; try lia; try now rewrite <- app_assoc.
Qed.

Lemma pauses_app evs evs' : pauses (evs ++ evs') = (pauses evs ++ pauses evs')%list.
Proof. apply flat_map_app. Qed.

Lemma errors_shown_app evs evs' :
  errors_shown (evs ++ evs') = (errors_shown evs ++ errors_shown evs')%list.
Proof. apply flat_map_app. Qed.

Lemma record_notices_app evs evs' :
  record_notices (evs ++ evs') = (record_notices evs ++ record_notices evs')%list.
Proof. apply filter_app. Qed.

Lemma count_present_cons a answers :
  count_present (a :: answers)
  = match a with Some _ => S (count_present answers) | None => count_present answers end.
Proof. destruct a; reflexivity. Qed.

Lemma prefix_append p s : String.prefix p (p ++ s) = true.
Proof.
  induction p as [|c p IH]; [destruct s; reflexivity|].
  simpl. destruct (ascii_dec c c); [exact IH|congruence].
Qed.

Lemma batch_shape env search_term rows :
  forall index w,
  exists total new,
    after_batch env search_term rows index w = advance total new w
    /\ 4 * count_present (analyzer_answers env search_term rows index w)
       + List.length rows <= total <= 5 * List.length rows
    /\ pauses new
       = repeat 1%Z (total + count_present (analyzer_answers env search_term rows index w))
    /\ record_notices new
       = notices_of index (analyzer_answers env search_term rows index w).
Proof.
  induction rows as [|row rest IH]; intros index w.
  - exists 0, []. rewrite advance_nothing. repeat split; simpl; lia.
  - destruct (analyze_ad_copy_shape env (ad_copy_of_row row) search_term w)
      as (r & n & new1 & Hrun & _ & _ & Hnot & Hr).
    cbn [after_batch analyzer_answers]. rewrite Hrun. cbn [fst snd].
    rewrite after_record_is_advance.
    set (notice := match r with
                   | Some _ => StSuccess ("Successfully analyzed ad " ++ str_of_nat (index + 1))
                   | None => StError ("Failed to analyze ad " ++ str_of_nat (index + 1))
                   end).
    set (w1 := advance n (new1 ++ [notice; Sleep 1]) w).
    destruct (IH (S index) w1) as (total & new & Hbatch & Hcalls & Hpauses & Hnotices).
    set (answers := analyzer_answers env search_term rest (S index) w1) in *.
    exists (n + total), ((new1 ++ [notice; Sleep 1]) ++ new)%list.
    split; [rewrite Hbatch; unfold w1; apply advance_advance|].
    rewrite count_present_cons.
    split; [|split].
    + cbn [List.length]. destruct r as [a|]; [destruct Hr as (-> & _)|destruct Hr as (Hn & _)]; lia.
    + rewrite !pauses_app, Hpauses.
      assert (Hone : pauses [notice; Sleep 1] = repeat 1%Z 1)
        by (unfold notice; destruct r; reflexivity).
      rewrite Hone.
      destruct r as [a|].
      * destruct Hr as (_ & -> & _). rewrite <- !repeat_app. f_equal. lia.
      * destruct Hr as (Hn & -> & _). rewrite <- !repeat_app. f_equal. lia.
    + rewrite !record_notices_app, Hnot, Hnotices. cbn [app].
      unfold notice. destruct r as [a|]; [reflexivity|].
      unfold record_notices. cbn [filter is_record_notice].
      now rewrite prefix_append.
Qed.

(** The loop body for a row that has the three columns. *)
Lemma process_rows_step env search_term row rest index results w :
  has_ad_columns row = true ->
  process_rows env search_term (row :: rest) index results w
  = let run := analyze_ad_copy env (ad_copy_of_row row) search_term w in
    let answer := match fst run with Ok a => a | Raise _ => None end in
    process_rows env search_term rest (S index)
      (results ++ match answer with Some a => [result_of row a] | None => [] end)%list
      (after_record index answer (snd run)).
Proof.
  intros Hrow. unfold has_ad_columns in Hrow.
  destruct (row_lookup "title" row) as [t|] eqn:Ht; [|discriminate].
  destruct (row_lookup "snippet" row) as [s|] eqn:Hs; [|discriminate].
  destruct (row_lookup "displayed_link" row) as [d|] eqn:Hd; [|discriminate].
  cbn [process_rows]. cbv zeta.
  unfold ad_copy_of_row, result_of. rewrite Ht, Hs, Hd.
  unfold row_get. rewrite Ht, Hs, Hd.
  unfold bind at 1. unfold ret at 1.
  unfold bind at 1. unfold ret at 1.
  unfold bind at 1. unfold ret at 1.
  destruct (analyze_ad_copy_returns env (ad_copy_of t s d) search_term w)
    as (r & w1 & Hrun).
  unfold bind at 1. rewrite Hrun. cbn [fst snd].
  destruct r as [a|].
  - unfold bind at 1. unfold bind at 1. unfold st_success, emit, ret.
    unfold bind at 1. unfold time_sleep, emit. reflexivity.
  - unfold bind at 1. unfold bind at 1. unfold st_error, emit, ret.
    unfold bind at 1. unfold time_sleep, emit. now rewrite app_nil_r.
Qed.

(** The loop stops at a row that lacks a column, before any call for it. *)
Lemma process_rows_missing_column env search_term row rest index results w :
  has_ad_columns row = false ->
  exists k,
    first_missing_column row = Some k
    /\ process_rows env search_term (row :: rest) index results w
       = (Raise (KeyError k), w).
Proof.
  unfold has_ad_columns, first_missing_column. intros Hrow.
  cbn [process_rows]. unfold row_get.
  destruct (row_lookup "title" row) as [t|]; [|eexists; split; reflexivity].
  destruct (row_lookup "snippet" row) as [s|]; [|eexists; split; reflexivity].
  destruct (row_lookup "displayed_link" row) as [d|]; [discriminate|].
  eexists; split; reflexivity.
Qed.

Lemma process_dataframe_shape env df search_term w :
  forallb has_ad_columns df = true ->
  exists total new,
    process_dataframe env df search_term w
    = (Ok (kept_rows df (analyzer_answers env search_term df 0 w)), advance total new w)
    /\ 4 * count_present (analyzer_answers env search_term df 0 w)
       + List.length df <= total <= 5 * List.length df
    /\ pauses new
       = repeat 1%Z (total + count_present (analyzer_answers env search_term df 0 w))
    /\ record_notices new = notices_of 0 (analyzer_answers env search_term df 0 w).
Proof.
  intros Hdf. unfold process_dataframe. rewrite (process_rows_run _ _ _ _ _ _ Hdf).
  destruct (batch_shape env search_term df 0 w) as (total & new & Hbatch & H).
  exists total, new. rewrite Hbatch. split; [reflexivity|exact H].
Qed.

(** X3. A batch over K records with the three columns issues at least one
    and at most five chat-completion calls per record, five for every
    record that gets a result row: between 4 * rows + K and 5 * K calls.
    All its pauses last one second, and there are as many of them as calls
    plus result rows.  The batch calls no other endpoint and leaves the
    stored results alone. *)
Theorem batch_calls_and_pauses env df search_term w :
  forallb has_ad_columns df = true ->
  exists results total new,
    process_dataframe env df search_term w = (Ok results, advance total new w)
    /\ 4 * List.length results + List.length df <= total <= 5 * List.length df
    /\ pauses new = repeat 1%Z (total + List.length results).
Proof.
  intros Hdf.
  destruct (process_dataframe_shape env df search_term w Hdf)
    as (total & new & Hrun & Hcalls & Hpauses & _).
  exists (kept_rows df (analyzer_answers env search_term df 0 w)), total, new.
  rewrite (kept_rows_count df (analyzer_answers env search_term df 0 w))
    by apply analyzer_answers_length.
  repeat split; try assumption; lia.
Qed.

Lemma batch_calls_and_pauses_witness :
  exists results total new,
    process_dataframe (healthy_except 7 (answer 500 None) five_texts) three_ads
      "widgets" initial_world
    = (Ok results, advance total new initial_world)
    /\ 4 * List.length results + 3 <= total <= 15
    /\ pauses new = repeat 1%Z (total + List.length results).
Proof.
  apply (@batch_calls_and_pauses (healthy_except 7 (answer 500 None) five_texts)
           three_ads "widgets" initial_world).
  reflexivity.
Defined.

(** X4. The notifications of a batch are one per record, in input order:
    a success message for a record that got a result row, a failure message
    otherwise, each carrying the record's position in the input counted
    from 1 (not its position among the results). *)
Theorem batch_notifies_each_record env df search_term w :
  forallb has_ad_columns df = true ->
  exists results total new,
    process_dataframe env df search_term w = (Ok results, advance total new w)
    /\ record_notices new = notices_of 0 (analyzer_answers env search_term df 0 w).
Proof.
  intros Hdf.
  destruct (process_dataframe_shape env df search_term w Hdf)
    as (total & new & Hrun & _ & _ & Hnotices).
  eauto.
Qed.

Lemma batch_notifies_each_record_witness :
  exists results total new,
    process_dataframe (healthy_except 7 (answer 500 None) five_texts) three_ads
      "widgets" initial_world
    = (Ok results, advance total new initial_world)
    /\ record_notices new
       = [ StSuccess "Successfully analyzed ad 1";
           StError "Failed to analyze ad 2";
           StSuccess "Successfully analyzed ad 3" ].
Proof.
  apply (@batch_notifies_each_record (healthy_except 7 (answer 500 None) five_texts)
           three_ads "widgets" initial_world).
  reflexivity.
Defined.

(** ** The result display *)

Lemma show_rows_run rows :
  forall index w,
    Forall is_result_row rows ->
    show_rows rows index w = (Ok tt, advance 0 (expanders rows index) w).
Proof.
  induction rows as [|row rest IH]; intros index w Hrows.
  - simpl. now rewrite advance_nothing.
  - inversion Hrows as [|? ? (t & s & d & a & ->) Hrest]; subst.
    cbn [show_rows expanders]. unfold row_get.
    assert (Ht : row_lookup "title"
                   [ ("title", t); ("snippet", s); ("displayed_link", d);
                     ("analysis", Text a) ] = Some t) by reflexivity.
    assert (Ha : row_lookup "analysis"
                   [ ("title", t); ("snippet", s); ("displayed_link", d);
                     ("analysis", Text a) ] = Some (Text a)) by reflexivity.
    rewrite Ht, Ha.
    unfold bind at 1. unfold ret at 1. unfold bind at 1. unfold ret at 1.
    unfold bind at 1. unfold emit.
    rewrite (IH (S index) _ Hrest). rewrite log_is_advance, advance_advance.
    reflexivity.
Qed.

(** The display only adds events, whatever the stored rows are. *)
Lemma show_rows_frame rows :
  forall index w, exists o evs, show_rows rows index w = (o, advance 0 evs w).
Proof.
  induction rows as [|row rest IH]; intros index w.
  - exists (Ok tt), []. simpl. now rewrite advance_nothing.
  - cbn [show_rows]. unfold row_get.
    destruct (row_lookup "title" row) as [t|].
    2:{ exists (Raise (KeyError "title")), []. now rewrite advance_nothing. }
    destruct (row_lookup "analysis" row) as [a|].
    2:{ exists (Raise (KeyError "analysis")), []. now rewrite advance_nothing. }
    unfold bind at 1. unfold ret at 1. unfold bind at 1. unfold ret at 1.
    unfold bind at 1. unfold emit.
    destruct (IH (S index)
                (log (StExpander ("Analysis for Ad " ++ str_of_nat (index + 1) ++ ": " ++
                                  format_cell t) a) w))
      as (o & evs & Hrun).
    rewrite Hrun. rewrite log_is_advance, advance_advance.
    eexists; eexists; reflexivity.
Qed.

Lemma show_results_frame w :
  exists o evs, show_results w = (o, advance 0 evs w).
Proof.
  unfold show_results. unfold bind at 1. unfold get_session_results.
  destruct (session_results w) as [results|].
  2:{ exists (Ok tt), []. unfold ret. now rewrite advance_nothing. }
  unfold bind at 1. unfold emit.
  destruct (show_rows_frame results 0 (log (StWrite "Analysis Results:") w))
    as (o & evs & Hrun).
  unfold bind at 1. rewrite Hrun.
  destruct o as [[]|e].
  - unfold emit. rewrite !log_is_advance, !advance_advance.
    eexists; eexists; reflexivity.
  - rewrite log_is_advance, advance_advance.
    eexists; eexists; reflexivity.
Qed.

Lemma show_results_run w results :
  session_results w = Some results ->
  Forall is_result_row results ->
  show_results w = (Ok tt, advance 0 (results_display results) w).
Proof.
  intros Hstored Hrows. unfold show_results.
  unfold bind at 1. unfold get_session_results. rewrite Hstored.
  unfold bind at 1. unfold emit.
  unfold bind at 1. rewrite (show_rows_run 0 _ Hrows).
  unfold emit. rewrite !log_is_advance, !advance_advance. reflexivity.
Qed.

(** ** The batch on any table *)

Lemma process_rows_frame env search_term rows :
  forall index results w,
  exists o n evs,
    process_rows env search_term rows index results w = (o, advance n evs w)
    /\ forall final, o = Ok final ->
                     Forall is_result_row results -> Forall is_result_row final.
Proof.
  induction rows as [|row rest IH]; intros index results w.
  - exists (Ok results), 0, []. simpl. rewrite advance_nothing.
    split; [reflexivity|]. intros final [= <-]. auto.
  - destruct (has_ad_columns row) eqn:Hrow.
    + rewrite (process_rows_step _ _ _ _ _ _ _ Hrow). cbv zeta.
      destruct (analyze_ad_copy_shape env (ad_copy_of_row row) search_term w)
        as (r & n & new & Hrun & _).
      rewrite Hrun. cbn [fst snd]. rewrite after_record_is_advance.
      match goal with
      | |- context [process_rows _ _ _ _ ?acc ?w1] =>
          destruct (IH (S index) acc w1) as (o & m & evs & Hrest & Hfinal)
      end.
      rewrite Hrest, advance_advance. exists o. eexists. eexists.
      split; [reflexivity|].
      intros final Ho Hresults. apply (Hfinal final Ho).
      apply Forall_app. split; [exact Hresults|].
      destruct r as [a|]; [|constructor].
      constructor; [|constructor].
      unfold has_ad_columns in Hrow. unfold result_of.
      destruct (row_lookup "title" row) as [t|]; [|discriminate].
      destruct (row_lookup "snippet" row) as [s|]; [|discriminate].
      destruct (row_lookup "displayed_link" row) as [d|]; [|discriminate].
      now exists t, s, d, a.
    + destruct (process_rows_missing_column env search_term row rest index results w Hrow)
        as (k & _ & Hrun).
      rewrite Hrun. exists (Raise (KeyError k)), 0, []. rewrite advance_nothing.
      split; [reflexivity|]. discriminate.
Qed.

(** X5. A table whose first row lacks one of the columns [title],
    [snippet], [displayed_link] makes the batch raise [KeyError] for the
    first column that is missing, before any call is issued; in a run, the
    probe has been made by then, the error is shown and the stored results
    are left as they were. *)
Theorem missing_column_stops_the_batch env row rest c search_term w :
  has_ad_columns row = false ->
  exists k,
    first_missing_column row = Some k
    /\ process_dataframe env (row :: rest) (String c search_term) w
       = (Raise (KeyError k), w)
    /\ forall j p,
         json_to_dataframe env j w = (Ok (row :: rest), w) ->
         probe_pair (get_server env (gets w)) = Some p ->
         is_None (fst p) = false ->
         main env (Some (JsonText j)) (String c search_term) true w
         = (Ok tt,
            log (StError ("An error occurred while processing the file: '" ++ k ++ "'"))
              (got status_url (status_headers env)
                 (log (StWriteFrame (row :: rest))
                    (log (StWrite "Converted JSON data:") w)))).
Proof.
  intros Hrow.
  destruct (process_rows_missing_column env (String c search_term) row rest 0 [] w Hrow)
    as (k & Hk & Hrun).
  exists k. split; [exact Hk|]. split; [exact Hrun|].
  intros j p Hdf Hprobe Hpresent. unfold main.
  rewrite (@main_upload_loaded env j (String c search_term) true w (row :: rest) Hdf).
  set (w2 := log (StWriteFrame (row :: rest)) (log (StWrite "Converted JSON data:") w)).
  assert (Hp : check_rate_limits env w2 = (Ok p, got status_url (status_headers env) w2))
    by (apply probe_extracts; exact Hprobe).
  destruct (process_rows_missing_column env (String c search_term) row rest 0 []
              (got status_url (status_headers env) w2) Hrow) as (k' & Hk' & Hrun').
  assert (k' = k) by congruence. subst k'.
  erewrite try_except_raise.
  2:{ erewrite bind_ok by exact Hp. cbv beta. rewrite Hpresent.
      erewrite bind_raise by exact Hrun'. reflexivity. }
  reflexivity.
Qed.

Lemma missing_column_stops_the_batch_witness :
  let row := [("title", Text "Buy Widgets"); ("displayed_link", Text "widgets.com")] in
  process_dataframe (healthy five_texts) [row] "widgets" initial_world
  = (Raise (KeyError "snippet"), initial_world).
Proof.
  intros row.
  destruct (@missing_column_stops_the_batch (healthy five_texts) row [] "w" "idgets"
              initial_world eq_refl) as (k & Hk & Hrun & _).
  injection Hk as <-. exact Hrun.
Defined.

(** X6. A run with a readable upload whose rows have the three columns, a
    click on Analyze and a probe whose first component is present stores
    exactly the rows the batch returned, in place of any earlier results,
    reports their number, and shows them with the download of their export.
    The values of the probe's pair play no part in it. *)
Theorem completed_run_stores_the_batch env j df c search_term w p :
  json_to_dataframe env j w = (Ok df, w) ->
  forallb has_ad_columns df = true ->
  probe_pair (get_server env (gets w)) = Some p ->
  is_None (fst p) = false ->
  let w1 := got status_url (status_headers env)
              (log (StWriteFrame df) (log (StWrite "Converted JSON data:") w)) in
  let results := kept_rows df (analyzer_answers env (String c search_term) df 0 w1) in
  main env (Some (JsonText j)) (String c search_term) true w
  = (Ok tt,
     advance 0
       (StSuccess ("Analysis complete! Successfully analyzed " ++
                   str_of_nat (List.length results) ++ " ads.")
          :: results_display results)
       (store (Some results) (after_batch env (String c search_term) df 0 w1))).
Proof.
  intros Hdf Hcols Hprobe Hpresent w1 results. unfold main.
  rewrite (@main_upload_loaded env j (String c search_term) true w df Hdf).
  set (w2 := log (StWriteFrame df) (log (StWrite "Converted JSON data:") w)).
  assert (Hp : check_rate_limits env w2 = (Ok p, w1))
    by (apply probe_extracts; exact Hprobe).
  assert (Hbatch : process_dataframe env df (String c search_term) w1
                   = (Ok results, after_batch env (String c search_term) df 0 w1)).
  { unfold process_dataframe. now rewrite process_rows_run. }
  assert (Hrows : Forall is_result_row results)
    by (apply kept_rows_are_result_rows; exact Hcols).
  erewrite try_except_ok.
  2:{ erewrite bind_ok by exact Hp. cbv beta. rewrite Hpresent.
      erewrite bind_ok by exact Hbatch.
      unfold bind at 1. unfold set_session_results.
      unfold bind at 1. unfold st_success, emit.
      apply show_results_run; [reflexivity|exact Hrows]. }
  f_equal. rewrite log_is_advance, advance_advance. reflexivity.
Qed.

Lemma completed_run_stores_the_batch_witness :
  let w' := snd (main (healthy five_texts) (Some (JsonText widgets_document)) "widgets"
                   true initial_world) in
  posts w' = 5
  /\ option_map (map (row_lookup "title")) (session_results w')
     = Some [Some (Text "Buy Widgets")]
  /\ successes_shown (trace w')
     = ["Successfully analyzed ad 1"; "Analysis complete! Successfully analyzed 1 ads."].
Proof.
  intros w'. unfold w'.
  rewrite (@completed_run_stores_the_batch (healthy five_texts) widgets_document
             [widgets_row] "w" "idgets" initial_world (JInt 200, JStr "10s")
             eq_refl eq_refl eq_refl eq_refl).
  split; [|split]; reflexivity.
Defined.

(** ** Runs of the page *)

(** An upload either cannot be read into a table, or gives one and leaves
    the world as it is. *)
Lemma load_cases env f w :
  (exists e, fst ((json_data <- json_load f ;; json_to_dataframe env json_data) w)
             = Raise e)
  \/ (exists j df, f = JsonText j /\ json_to_dataframe env j w = (Ok df, w)).
Proof.
  destruct f as [|j].
  - left. exists JSONDecodeError. reflexivity.
  - pose proof (json_to_dataframe_pure env j w) as Hw.
    unfold bind at 1. unfold json_load, ret.
    destruct (json_to_dataframe env j w) as [[df|e] w'] eqn:Hj; cbn [fst snd] in *.
    + right. exists j, df. subst w'. auto.
    + left. exists e. reflexivity.
Qed.

Lemma try_except_frame (body : M unit) (text : Exn -> string) w o n evs :
  body w = (o, advance n evs w) ->
  exists evs',
    snd (try_except body (fun e => st_error (text e)) w) = advance n evs' w.
Proof.
  intros H. unfold try_except. rewrite H. destruct o as [a|e].
  - exists evs. reflexivity.
  - unfold st_error, emit. cbn [snd]. rewrite log_is_advance, advance_advance.
    rewrite Nat.add_0_r. eexists; reflexivity.
Qed.

Lemma main_upload_without_click env f search_term w :
  exists evs, snd (main_upload env f search_term false w) = advance 0 evs w.
Proof.
  destruct (load_cases env f w) as [[e He]|(j & df & -> & Hdf)].
  - rewrite (@main_upload_aborts env f search_term false w e He).
    eexists. cbn [snd]. now rewrite log_is_advance.
  - rewrite (@main_upload_loaded env j search_term false w df Hdf).
    set (w2 := log (StWriteFrame df) (log (StWrite "Converted JSON data:") w)).
    destruct (show_results_frame w2) as (o & evs & Hshow).
    destruct (@try_except_frame show_results
                (fun e => "An error occurred while processing the file: " ++ exn_str e)
                w2 o 0 evs Hshow) as (evs' & Hrun).
    rewrite Hrun. unfold w2. rewrite !log_is_advance, !advance_advance.
    eexists; reflexivity.
Qed.

Lemma run_without_click_frame env uploaded_file search_term w :
  exists evs, snd (main env uploaded_file search_term false w) = advance 0 evs w.
Proof.
  destruct uploaded_file as [f|]; destruct search_term as [|c search_term];
    try (exists []; simpl; now rewrite advance_nothing).
  apply main_upload_without_click.
Qed.

(** X7. Without a click on Analyze a run makes no HTTP request at all, to
    either endpoint, and leaves the stored results as they were, whatever
    is uploaded. *)
Theorem run_without_click_requests_nothing env uploaded_file search_term w :
  let w' := snd (main env uploaded_file search_term false w) in
  posts w' = posts w /\ gets w' = gets w /\ session_results w' = session_results w.
Proof.
  destruct (run_without_click_frame env uploaded_file search_term w) as (evs & ->).
  repeat split.
Qed.

(** X8. A run without a click on Analyze, in a session that holds results
    of an earlier run, shows the uploaded table and then the stored results
    again: one expander per stored row, labelled from 1 with the row's
    title, and the download of the export of the stored rows. *)
Theorem stored_results_are_shown_again env j df c search_term w results :
  json_to_dataframe env j w = (Ok df, w) ->
  session_results w = Some results ->
  Forall is_result_row results ->
  main env (Some (JsonText j)) (String c search_term) false w
  = (Ok tt,
     advance 0
       (StWrite "Converted JSON data:" :: StWriteFrame df :: results_display results) w).
Proof.
  intros Hdf Hstored Hrows. unfold main.
  rewrite (@main_upload_loaded env j (String c search_term) false w df Hdf).
  erewrite try_except_ok.
  2:{ apply show_results_run; [exact Hstored|exact Hrows]. }
  rewrite !log_is_advance, !advance_advance. reflexivity.
Qed.

Lemma stored_results_are_shown_again_witness :
  let stored := [result_row (Text "Buy Widgets") (Text "Best widgets online")
                    (Text "widgets.com") "fine"] in
  expanders stored 0 = [StExpander "Analysis for Ad 1: Buy Widgets" (Text "fine")]
  /\ main (healthy five_texts) (Some (JsonText widgets_document)) "widgets" false
       (store (Some stored) initial_world)
     = (Ok tt,
        advance 0
          (StWrite "Converted JSON data:" :: StWriteFrame [widgets_row]
             :: results_display stored)
          (store (Some stored) initial_world)).
Proof.
  intros stored. split; [reflexivity|].
  apply (@stored_results_are_shown_again (healthy five_texts) widgets_document
           [widgets_row] "w" "idgets" (store (Some stored) initial_world) stored).
  - reflexivity.
  - reflexivity.
  - constructor; [|constructor].
    now exists (Text "Buy Widgets"), (Text "Best widgets online"),
      (Text "widgets.com"), "fine".
Defined.

(** X9. The stored results are always rows appended by the batch (a title,
    a snippet, a displayed link and an analysis each): every run keeps
    this, whatever is uploaded, whatever the endpoints do, and also when the
    run ends in an error. *)
Theorem stored_results_stay_result_rows env uploaded_file search_term clicked w :
  results_well_formed w ->
  results_well_formed (snd (main env uploaded_file search_term clicked w)).
Proof.
  intros Hw.
  destruct clicked.
  2:{ destruct (run_without_click_frame env uploaded_file search_term w) as (evs & ->).
      exact Hw. }
  destruct uploaded_file as [f|]; destruct search_term as [|c search_term];
    try exact Hw.
  unfold main.
  destruct (load_cases env f w) as [[e He]|(j & df & -> & Hdf)].
  { rewrite (@main_upload_aborts env f (String c search_term) true w e He). exact Hw. }
  rewrite (@main_upload_loaded env j (String c search_term) true w df Hdf).
  set (w2 := log (StWriteFrame df) (log (StWrite "Converted JSON data:") w)).
  destruct (probe_run env w2) as (w3 & Hprobe & _ & Hsession).
  set (limits := probe_result (get_server env (gets w2))) in *.
  unfold try_except. unfold bind at 1. rewrite Hprobe.
  destruct (is_None (fst limits)).
  { unfold results_well_formed. cbn [snd ret]. rewrite Hsession. exact Hw. }
  destruct (process_rows_frame env (String c search_term) df 0 [] w3)
    as (o & n & evs & Hbatch & Hfinal).
  unfold bind at 1. unfold process_dataframe. rewrite Hbatch.
  destruct o as [final|e].
  - unfold bind at 1. unfold set_session_results.
    unfold bind at 1. unfold st_success, emit.
    match goal with
    | |- context [show_results ?w5] =>
        destruct (show_results_frame w5) as (o & evs' & Hshow); rewrite Hshow
    end.
    assert (Hrows : Forall is_result_row final) by (apply Hfinal; auto).
    destruct o as [[]|e]; exact Hrows.
  - unfold results_well_formed. cbn [snd st_error emit log session_results advance].
    rewrite Hsession. exact Hw.
Qed.

Lemma stored_results_stay_result_rows_witness :
  results_well_formed
    (snd (main (healthy_except 7 (answer 500 None) five_texts)
            (Some (JsonText widgets_document)) "widgets" true initial_world)).
Proof.
  apply (@stored_results_stay_result_rows (healthy_except 7 (answer 500 None) five_texts)
           (Some (JsonText widgets_document)) "widgets" true initial_world).
  exact I.
Defined.

(** ** The login form and the logout button *)

(** Without a click on Analyze, the block under the uploader does what
    [main] does for a logged-in session, and runs to its end. *)
Lemma upload_block_without_click env uploaded_file search_term w :
  upload_block env uploaded_file search_term false w
  = (Ok false, snd (main env uploaded_file search_term false w)).
Proof.
  destruct uploaded_file as [f|]; destruct search_term as [|c search_term];
    try reflexivity.
  unfold upload_block, main, main_upload, try_except.
  destruct f as [|j]; [reflexivity|].
  unfold json_load, bind, ret, emit.
  destruct (json_to_dataframe env j w) as [[df|e] w1]; [|reflexivity].
  destruct (show_results (log (StWriteFrame df) (log (StWrite "Converted JSON data:") w1)))
    as [[[]|e] w2]; reflexivity.
Qed.

(** X10. In a session that is not logged in, a run makes no HTTP request,
    reads no upload and leaves the stored results alone, whatever the other
    widgets hold: the world is unchanged but for the one error message
    'Invalid username or password', shown exactly when the login form was
    submitted and refused.  The session is logged in after the run exactly
    when the login form was submitted with the user name and the password
    of the secrets, both equal to them character by character, and then the
    script is restarted. *)
Theorem logged_out_run_is_gated env secrets ui w :
  exists run_end flag evs,
    main_session env secrets ui false w = (Ok (run_end, flag), advance 0 evs w)
    /\ (flag = true <->
        login_clicked ui = true
        /\ username_input ui = login_username secrets
        /\ password_input ui = login_password secrets)
    /\ evs = (if login_clicked ui && negb flag
              then [StError "Invalid username or password"]
              else [])
    /\ run_end = (if flag then Rerun else Completed).
Proof.
  unfold main_session, authenticate. cbn [negb].
  destruct (login_clicked ui).
  - destruct (String.eqb (username_input ui) (login_username secrets)) eqn:Hu;
      destruct (String.eqb (password_input ui) (login_password secrets)) eqn:Hp;
      cbn [andb].
    + apply String.eqb_eq in Hu, Hp.
      exists Rerun, true, []. rewrite advance_nothing.
      split; [reflexivity|]. split; [tauto|]. split; reflexivity.
    + apply String.eqb_neq in Hp.
      exists Completed, false, [StError "Invalid username or password"].
      split; [reflexivity|]. split; [|split; reflexivity].
      split; [discriminate|]. tauto.
    + apply String.eqb_neq in Hu.
      exists Completed, false, [StError "Invalid username or password"].
      split; [reflexivity|]. split; [|split; reflexivity].
      split; [discriminate|]. tauto.
    + apply String.eqb_neq in Hu.
      exists Completed, false, [StError "Invalid username or password"].
      split; [reflexivity|]. split; [|split; reflexivity].
      split; [discriminate|]. tauto.
  - exists Completed, false, []. rewrite advance_nothing.
    split; [reflexivity|]. split; [|split; reflexivity].
    split; [discriminate|]. intros (H & _). discriminate.
Qed.

(** X11. In a logged-in session, a click on Logout (in a run where Analyze
    is not clicked) logs the session out, drops the stored results and
    restarts the script, after the page has done what it does without a
    click; without the click on Logout the session stays logged in and the
    run ends normally. *)
Theorem logout_drops_the_results env secrets ui w :
  analyze_clicked ui = false ->
  let w1 := snd (main env (file_input ui) (search_term_input ui) false w) in
  main_session env secrets ui true w
  = if logout_clicked ui
    then (Ok (Rerun, false), store None w1)
    else (Ok (Completed, true), w1).
Proof.
  intros Hclick w1. unfold main_session. cbn [negb]. rewrite Hclick.
  unfold bind at 1. rewrite upload_block_without_click. fold w1.
  destruct (logout_clicked ui); reflexivity.
Qed.

Lemma logout_drops_the_results_witness :
  let stored := [result_row (Text "Buy Widgets") (Text "Best widgets online")
                    (Text "widgets.com") "fine"] in
  let run := main_session (healthy five_texts) sample_secrets
               (idle_form None EmptyString false true)
               true (store (Some stored) initial_world) in
  fst run = Ok (Rerun, false) /\ session_results (snd run) = None.
Proof.
  intros stored run. unfold run.
  rewrite (@logout_drops_the_results (healthy five_texts) sample_secrets
             (idle_form None EmptyString false true)
             (store (Some stored) initial_world) eq_refl).
  split; reflexivity.
Defined.

(** The block under the uploader does, on the world, what [main] does for a
    logged-in session, and never raises. *)
Lemma upload_block_is_main env uploaded_file search_term clicked w :
  exists returned,
    upload_block env uploaded_file search_term clicked w
    = (Ok returned, snd (main env uploaded_file search_term clicked w)).
Proof.
  destruct clicked.
  2:{ exists false. apply upload_block_without_click. }
  destruct uploaded_file as [f|]; destruct search_term as [|c search_term];
    try (exists false; reflexivity).
  unfold upload_block, main, main_upload, try_except.
  destruct f as [|j]; [exists false; reflexivity|].
  unfold json_load, bind, ret, emit.
  destruct (json_to_dataframe env j w) as [[df|e] w1]; [|exists false; reflexivity].
  destruct (check_rate_limits env _) as [[limits|e] w2]; [|exists false; reflexivity].
  destruct (is_None (fst limits)); [exists true; reflexivity|].
  destruct (process_dataframe env df (String c search_term) w2) as [[results|e] w3];
    [|exists false; reflexivity].
  unfold set_session_results, st_success, emit.
  destruct (show_results _) as [[[]|e] w4]; exists false; reflexivity.
Qed.

(** X12. In a logged-in session without a click on Logout, the script does
    on the world exactly what the page does (the upload, the probe, the
    batch, the display), never raises, and leaves the session logged in. *)
Theorem logged_in_run_is_the_page env secrets ui w :
  logout_clicked ui = false ->
  main_session env secrets ui true w
  = (Ok (Completed, true),
     snd (main env (file_input ui) (search_term_input ui) (analyze_clicked ui) w)).
Proof.
  intros Hlogout. unfold main_session. cbn [negb].
  destruct (upload_block_is_main env (file_input ui) (search_term_input ui)
              (analyze_clicked ui) w) as (returned & Hblock).
  unfold bind at 1. rewrite Hblock, Hlogout.
  destruct returned; reflexivity.
Qed.

Lemma logged_in_run_is_the_page_witness :
  let run := main_session (healthy five_texts) sample_secrets
               (idle_form (Some (JsonText widgets_document)) "widgets" true false)
               true initial_world in
  fst run = Ok (Completed, true) /\ posts (snd run) = 5.
Proof.
  intros run. unfold run.
  rewrite (@logged_in_run_is_the_page (healthy five_texts) sample_secrets
             (idle_form (Some (JsonText widgets_document)) "widgets" true false)
             initial_world eq_refl).
  split; reflexivity.
Defined.
